(** * FloorPlanning: the floor plan editor and its mocked placement back end

    A shallow embedding of [src/uinegative.jsx].  The React component
    [FloorPlanGenerator] keeps its editor state in [useState] cells; here the
    cells are the fields of one record [State] and every event handler is a
    function on that record.  The object [mockPythonFunctions] stands in for
    the placement engine: each of its functions writes one line to the
    console and returns a constant object.

    Conventions.
    - The numbers held by the editor (coordinates, sizes, budgets, the attempt
      count) are integer literals or results of [parseInt]: binary64 numbers
      whose value is an integer, or an infinity.  They are modelled in [Z]:
      [parseInt] rounds the integer it reads to the nearest binary64
      ([roundBinary64]), and the two infinities are written [Infinity] and
      [- Infinity], that is 2^1024 and its opposite.  The source compares
      these numbers with 0, tests them for truth and prints them, and does
      no arithmetic on them.  [NaN] is [None]; the two zeros are one [0],
      both being falsy.
    - The numbers of the statistics object are IEEE binary64 values, modelled
      by Rocq's primitive floats, so that [0.8] and [240 / 300] mean what they
      mean in JavaScript.
    - Strings are sequences of bytes, a text being given in UTF-8.
    - A handler that throws a [TypeError] returns [None]. *)

From Stdlib Require Import ZArith String Ascii List Bool PrimFloat SpecFloat.
From stdpp Require Import base option list list_numbers strings pretty.

Set Warnings "-inexact-float,-register-all".

Local Open Scope string_scope.
Local Open Scope list_scope.
Local Open Scope Z_scope.

(** ** JavaScript values *)

(** The fragment of JavaScript values that the mocked back end returns. *)
Inductive value : Type :=
  | VUndefined
  | VNull
  | VBool (b : bool)
  | VNum (n : float)
  | VStr (s : string)
  | VArr (elems : list value)
  | VObj (props : list (string * value)).

Fixpoint lookupProp (props : list (string * value)) (k : string) : value :=
  match props with
  | [] => VUndefined
  | (k', v) :: rest => if bool_decide (k' = k) then v else lookupProp rest k
  end.

(** [o.k]: the value of an own property, [undefined] when there is none. *)
Definition getProp (o : value) (k : string) : value :=
  match o with
  | VObj props => lookupProp props k
  | _ => VUndefined
  end.

(** ToBoolean. *)
Definition truthy (v : value) : bool :=
  match v with
  | VUndefined | VNull => false
  | VBool b => b
  | VNum n => negb (PrimFloat.is_zero n || PrimFloat.is_nan n)
  | VStr s => negb (bool_decide (s = ""))
  | VArr _ | VObj _ => true
  end.

(** An array of two-element string arrays, read as a list of pairs. *)
Definition pairOf (v : value) : option (string * string) :=
  match v with
  | VArr [VStr a; VStr b] => Some (a, b)
  | _ => None
  end.

Definition pairsOf (v : value) : list (string * string) :=
  match v with
  | VArr elems => omap pairOf elems
  | _ => []
  end.

(** ** The editor's data *)

Module Region.
Record t : Type := mk { x : Z; y : Z; width : Z; height : Z }.
End Region.

Module Room.
Record t : Type := mk { name : string; width : Z; height : Z; maxExpansion : Z }.
Definition setName (n : string) (r : t) : t :=
  mk n (width r) (height r) (maxExpansion r).
End Room.

Module Adjacency.
Record t : Type := mk { room1 : string; room2 : string }.
Definition setRoom1 (n : string) (a : t) : t := mk n (room2 a).
Definition setRoom2 (n : string) (a : t) : t := mk (room1 a) n.
Definition toPair (a : t) : string * string := (room1 a, room2 a).
End Adjacency.

Module Settings.
Record t : Type := mk { maxAttempts : Z; enableExpansion : bool }.
Definition setMaxAttempts (n : Z) (c : t) : t := mk n (enableExpansion c).
Definition setEnableExpansion (b : bool) (c : t) : t := mk (maxAttempts c) b.
End Settings.

Global Instance Region_eq_dec : EqDecision Region.t.
Proof. solve_decision. Defined.
Global Instance Room_eq_dec : EqDecision Room.t.
Proof. solve_decision. Defined.
Global Instance Adjacency_eq_dec : EqDecision Adjacency.t.
Proof. solve_decision. Defined.
Global Instance Settings_eq_dec : EqDecision Settings.t.
Proof. solve_decision. Defined.

(** ** The console *)

(** One argument of a [console.log] call: a string, or the regions array that
    [createFloorPlan] passes as its second argument. *)
Inductive LogArg : Type :=
  | LStr (s : string)
  | LRegions (rs : list Region.t).

(** One [console.log] call. *)
Definition LogLine : Type := list LogArg.

(** A computation that returns a value and writes lines to the console. *)
Definition Logged (A : Type) : Type := A * list LogLine.

Definition ret {A} (a : A) : Logged A := (a, []).

Definition bind {A B} (m : Logged A) (k : A → Logged B) : Logged B :=
  let '(b, out) := k m.1 in (b, m.2 ++ out).

Definition log (line : LogLine) : Logged unit := (tt, [line]).

Notation "m >>- k" := (bind m k) (at level 60, right associativity).
Notation "m ;;- k" := (bind m (λ _, k)) (at level 60, right associativity).

(** [xs.forEach(f)]. *)
Fixpoint forEach {A} (xs : list A) (f : A → Logged value) : Logged unit :=
  match xs with
  | [] => ret tt
  | x :: rest => f x ;;- forEach rest f
  end.

(** ** The numbers of the editor *)

(** The number that stands for positive infinity. *)
Definition Infinity : Z := 2 ^ 1024.

(** The binary64 number nearest to an integer, ties going to the even
    significand; an integer that rounds beyond the largest binary64 number
    becomes an infinity.  Integers up to 2^53 in absolute value are binary64
    numbers themselves. *)
Definition roundBinary64 (z : Z) : Z :=
  let m := Z.abs z in
  let e := Z.log2 m - 52 in
  if e <=? 0 then z
  else
    let q := m / 2 ^ e in
    let r := m mod 2 ^ e in
    let half := 2 ^ (e - 1) in
    let q' := if r <? half then q
              else if half <? r then q + 1
              else if Z.even q then q else q + 1 in
    Z.sgn z * Z.min (q' * 2 ^ e) Infinity.

(** The same rounding, by the model of IEEE 754 of the Standard Library. *)
Definition roundBySpecFloat (z : Z) : Z :=
  match binary_normalize 53 1024 z 0 false with
  | S754_zero _ | S754_nan => 0
  | S754_infinity negative => if negative then - Infinity else Infinity
  | S754_finite negative m e =>
      (if negative then -1 else 1)
      * (if 0 <=? e then Z.pos m * 2 ^ e else Z.pos m / 2 ^ (- e))
  end.

(** The number of digits of the decimal notation of a positive integer. *)
Definition decimalDigits (x : Z) : Z := Z.of_nat (String.length (pretty x)).

(** Number::toString, step 5, for a binary64 number [x] above 2^53 of [nd]
    decimal digits: the least number [k] of digits, tried from [k] upwards,
    such that some integer [s] of [k] digits, followed by zeros, is a decimal
    that rounds to [x]; of two such [s] the one nearer to [x].  The result is
    [s] and the number [n] of digits before the decimal point. *)
Fixpoint shortestDigits (fuel : nat) (k nd x : Z) : Z * Z :=
  let p := nd - k in
  let lo := x / 10 ^ p in
  let hi := lo + 1 in
  let okLo := roundBinary64 (lo * 10 ^ p) =? x in
  let okHi := roundBinary64 (hi * 10 ^ p) =? x in
  let pick s := if s =? 10 ^ k then (1, nd + 1) else (s, nd) in
  if okLo && okHi then
    let dLo := x - lo * 10 ^ p in
    let dHi := hi * 10 ^ p - x in
    if dLo <? dHi then pick lo
    else if dHi <? dLo then pick hi
    else if Z.even lo then pick lo else pick hi
  else if okLo then pick lo
  else if okHi then pick hi
  else match fuel with
       | O => (x, nd)
       | S fuel' => shortestDigits fuel' (k + 1) nd x
       end.

(** Number::toString for a positive number of the editor: all the digits up
    to 2^53; beyond, the shortest digits that identify the number, followed
    by zeros below 10^21 and in exponent notation from 10^21 on. *)
Definition positiveToString (x : Z) : string :=
  if x <=? 2 ^ 53 then pretty x
  else if x =? Infinity then "Infinity"
  else
    let nd := decimalDigits x in
    let '(s, n) := shortestDigits (Z.to_nat nd) 1 nd x in
    let digits := pretty s in
    let k := Z.of_nat (String.length digits) in
    if n <=? 21 then pretty (s * 10 ^ (n - k))
    else match digits with
         | String d "" => String d ("e+" +:+ pretty (n - 1))
         | String d more => String d ("." +:+ more +:+ "e+" +:+ pretty (n - 1))
         | "" => ""
         end.

(** [`${z}`] for a number of the editor. *)
Definition numberToString (z : Z) : string :=
  if z <? 0 then "-" +:+ positiveToString (- z) else positiveToString z.

(** ** The mocked back end *)

(** [`${b}`] for a boolean. *)
Definition showBool (b : bool) : string := if b then "true" else "false".

Module mockPythonFunctions.

Definition createFloorPlan (regions : list Region.t) : Logged value :=
  log [LStr "Creating floor plan with regions:"; LRegions regions] ;;-
  ret (VObj [("success", VBool true)]).

Definition addRoom (name : string) (width height maxExpansion : Z) : Logged value :=
  log [LStr ("Adding room: " +:+ name +:+ " (" +:+ numberToString width +:+ "x" +:+
             numberToString height +:+ "), max expansion: " +:+
             numberToString maxExpansion)] ;;-
  ret (VObj [("success", VBool true)]).

Definition addAdjacency (room1 room2 : string) : Logged value :=
  log [LStr ("Adding adjacency between " +:+ room1 +:+ " and " +:+ room2)] ;;-
  ret (VObj [("success", VBool true)]).

Definition statistics : value :=
  VObj [ ("floorArea", VNum 300);
         ("roomArea", VNum 240);
         ("spaceUtilization", VNum 0.8);
         ("adjacencyScore", VNum 5);
         ("totalAdjacencies", VNum 7);
         ("adjacentPairs",
          VArr [ VArr [VStr "Living Room"; VStr "Kitchen"];
                 VArr [VStr "Kitchen"; VStr "Dining"];
                 VArr [VStr "Bedroom"; VStr "Bathroom"];
                 VArr [VStr "Living Room"; VStr "Bedroom"];
                 VArr [VStr "Bathroom"; VStr "Kitchen"] ]) ].

Definition placeRooms (maxAttempts : Z) (enableExpansion : bool) : Logged value :=
  log [LStr ("Placing rooms with " +:+ numberToString maxAttempts +:+
             " attempts, expansion: " +:+ showBool enableExpansion)] ;;-
  ret (VObj [("success", VBool true); ("statistics", statistics)]).

End mockPythonFunctions.

(** ** The component state *)

Record State : Type := mkState {
  regions : list Region.t;
  rooms : list Room.t;
  adjacencies : list Adjacency.t;
  settings : Settings.t;
  results : value;
  activeTab : string;
  newRegion : Region.t;
  newRoom : Room.t;
  newAdjacency : Adjacency.t;
  console : list LogLine
}.

Definition setRegions (v : list Region.t) (s : State) : State :=
  mkState v (rooms s) (adjacencies s) (settings s) (results s) (activeTab s)
          (newRegion s) (newRoom s) (newAdjacency s) (console s).
Definition setRooms (v : list Room.t) (s : State) : State :=
  mkState (regions s) v (adjacencies s) (settings s) (results s) (activeTab s)
          (newRegion s) (newRoom s) (newAdjacency s) (console s).
Definition setAdjacencies (v : list Adjacency.t) (s : State) : State :=
  mkState (regions s) (rooms s) v (settings s) (results s) (activeTab s)
          (newRegion s) (newRoom s) (newAdjacency s) (console s).
Definition setSettings (v : Settings.t) (s : State) : State :=
  mkState (regions s) (rooms s) (adjacencies s) v (results s) (activeTab s)
          (newRegion s) (newRoom s) (newAdjacency s) (console s).
Definition setResults (v : value) (s : State) : State :=
  mkState (regions s) (rooms s) (adjacencies s) (settings s) v (activeTab s)
          (newRegion s) (newRoom s) (newAdjacency s) (console s).
Definition setActiveTab (v : string) (s : State) : State :=
  mkState (regions s) (rooms s) (adjacencies s) (settings s) (results s) v
          (newRegion s) (newRoom s) (newAdjacency s) (console s).
Definition setNewRegion (v : Region.t) (s : State) : State :=
  mkState (regions s) (rooms s) (adjacencies s) (settings s) (results s) (activeTab s)
          v (newRoom s) (newAdjacency s) (console s).
Definition setNewRoom (v : Room.t) (s : State) : State :=
  mkState (regions s) (rooms s) (adjacencies s) (settings s) (results s) (activeTab s)
          (newRegion s) v (newAdjacency s) (console s).
Definition setNewAdjacency (v : Adjacency.t) (s : State) : State :=
  mkState (regions s) (rooms s) (adjacencies s) (settings s) (results s) (activeTab s)
          (newRegion s) (newRoom s) v (console s).
Definition writeConsole (out : list LogLine) (s : State) : State :=
  mkState (regions s) (rooms s) (adjacencies s) (settings s) (results s) (activeTab s)
          (newRegion s) (newRoom s) (newAdjacency s) (console s ++ out).

(** The state the component is mounted with, and an empty console. *)
Definition initialState : State := {|
  regions := [ Region.mk 0 0 5 15; Region.mk 5 0 10 5; Region.mk 15 0 5 15 ];
  rooms := [ Room.mk "Living Room" 6 4 10;
             Room.mk "Kitchen" 5 4 8;
             Room.mk "Dining" 4 4 6;
             Room.mk "Bedroom" 5 5 5;
             Room.mk "Bathroom" 3 3 2 ];
  adjacencies := [ Adjacency.mk "Living Room" "Kitchen";
                   Adjacency.mk "Kitchen" "Dining";
                   Adjacency.mk "Living Room" "Bedroom";
                   Adjacency.mk "Bedroom" "Bathroom";
                   Adjacency.mk "Bathroom" "Kitchen" ];
  settings := Settings.mk 5000 true;
  results := VNull;
  activeTab := "floorPlan";
  newRegion := Region.mk 0 0 5 5;
  newRoom := Room.mk "" 4 4 5;
  newAdjacency := Adjacency.mk "" "";
  console := []
|}.

(** ** [parseInt] *)

(** White space and line terminators that [parseInt] skips at the start of
    its argument.  Those of one byte: TAB, LF, VT, FF, CR and SP. *)
Definition isWhiteSpace (c : ascii) : bool :=
  let n := N_of_ascii c in
  ((9 <=? n) && (n <=? 13))%N || (n =? 32)%N.

(** The first byte of those of several bytes. *)
Definition startsWideSpace (c : ascii) : bool :=
  let n := N_of_ascii c in
  ((n =? 194) || (n =? 225) || (n =? 226) || (n =? 227) || (n =? 239))%N.

(** Of two bytes: U+00A0. *)
Definition isWideSpace2 (c1 c2 : ascii) : bool :=
  ((N_of_ascii c1 =? 194) && (N_of_ascii c2 =? 160))%N.

(** Of three bytes: U+1680, U+2000 to U+200A, U+2028, U+2029, U+202F, U+205F,
    U+3000 and U+FEFF. *)
Definition isWideSpace3 (c1 c2 c3 : ascii) : bool :=
  let n1 := N_of_ascii c1 in
  let n2 := N_of_ascii c2 in
  let n3 := N_of_ascii c3 in
  ((n1 =? 225) && (n2 =? 154) && (n3 =? 128)
   || (n1 =? 226) && (n2 =? 128)
      && ((128 <=? n3) && (n3 <=? 138) || (n3 =? 168) || (n3 =? 169) || (n3 =? 175))
   || (n1 =? 226) && (n2 =? 129) && (n3 =? 159)
   || (n1 =? 227) && (n2 =? 128) && (n3 =? 128)
   || (n1 =? 239) && (n2 =? 187) && (n3 =? 191))%N.

Fixpoint trimStart (s : string) : string :=
  match s with
  | String c1 rest1 =>
      if isWhiteSpace c1 then trimStart rest1
      else if startsWideSpace c1 then
        match rest1 with
        | String c2 rest2 =>
            if isWideSpace2 c1 c2 then trimStart rest2
            else match rest2 with
                 | String c3 rest3 =>
                     if isWideSpace3 c1 c2 c3 then trimStart rest3 else s
                 | EmptyString => s
                 end
        | EmptyString => s
        end
      else s
  | EmptyString => s
  end.

(** The value of a character as a digit: [0-9], then [a-z] or [A-Z] from 10. *)
Definition digitValue (c : ascii) : option Z :=
  let n := Z.of_N (N_of_ascii c) in
  if (48 <=? n) && (n <=? 57) then Some (n - 48)
  else if (97 <=? n) && (n <=? 122) then Some (n - 87)
  else if (65 <=? n) && (n <=? 90) then Some (n - 55)
  else None.

(** The integer written by the longest prefix of radix-[R] digits; [acc] is
    [None] until a digit has been read. *)
Fixpoint parseDigits (R : Z) (s : string) (acc : option Z) : option Z :=
  match s with
  | String c rest =>
      match digitValue c with
      | Some d => if d <? R then parseDigits R rest (Some (R * default 0 acc + d)) else acc
      | None => acc
      end
  | EmptyString => acc
  end.

(** [parseInt(inputString)] with no radix argument: optional sign, optional
    [0x] prefix selecting radix 16, then digits, every digit being read; the
    result is the binary64 number nearest to the integer read, and [None] is
    [NaN]. *)
Definition parseInt (inputString : string) : option Z :=
  let trimmed := trimStart inputString in
  let '(sign, unsigned) :=
    match trimmed with
    | String "-" rest => (-1, rest)
    | String "+" rest => (1, rest)
    | _ => (1, trimmed)
    end in
  let '(R, digits) :=
    match unsigned with
    | String "0" (String "x" rest) | String "0" (String "X" rest) => (16, rest)
    | _ => (10, unsigned)
    end in
  (λ mathInt, roundBinary64 (sign * mathInt)) <$> parseDigits R digits None.

(** A decimal digit, and a string of decimal digits: what a number is
    printed with. *)
Definition isDigit (c : ascii) : bool :=
  let n := N_of_ascii c in ((48 <=? n) && (n <=? 57))%N.

Fixpoint allDigits (s : string) : bool :=
  match s with
  | String c rest => isDigit c && allDigits rest
  | EmptyString => true
  end.

(** [n || d] for a number [n] and a default [d]: [NaN] and zero are falsy. *)
Definition orDefault (n : option Z) (d : Z) : Z :=
  match n with
  | Some z => if z =? 0 then d else z
  | None => d
  end.

(** ** Event handlers *)

Definition addRegion (s : State) : State :=
  if (0 <? Region.width (newRegion s)) && (0 <? Region.height (newRegion s))
  then setNewRegion (Region.mk 0 0 5 5) (setRegions (regions s ++ [newRegion s]) s)
  else s.

Definition removeRegion (index : nat) (s : State) : State :=
  setRegions (delete index (regions s)) s.

Definition addRoom (s : State) : State :=
  if negb (bool_decide (Room.name (newRoom s) = ""))
     && (0 <? Room.width (newRoom s)) && (0 <? Room.height (newRoom s))
  then setNewRoom (Room.mk "" 4 4 5) (setRooms (rooms s ++ [newRoom s]) s)
  else s.

(** [rooms[index].name] throws when [index] is out of range. *)
Definition removeRoom (index : nat) (s : State) : option State :=
  room ← rooms s !! index;
  let roomName := Room.name room in
  let updatedAdjacencies :=
    filter (λ adj, Adjacency.room1 adj ≠ roomName ∧ Adjacency.room2 adj ≠ roomName)
           (adjacencies s) in
  let updatedRooms := delete index (rooms s) in
  Some (setAdjacencies updatedAdjacencies (setRooms updatedRooms s)).

(** The test of [adjacencies.some] in [addAdjacency]: the same pair, in
    either order. *)
Definition samePair (new adj : Adjacency.t) : bool :=
  (bool_decide (Adjacency.room1 adj = Adjacency.room1 new)
   && bool_decide (Adjacency.room2 adj = Adjacency.room2 new))
  || (bool_decide (Adjacency.room1 adj = Adjacency.room2 new)
      && bool_decide (Adjacency.room2 adj = Adjacency.room1 new)).

Definition addAdjacency (s : State) : State :=
  let new := newAdjacency s in
  if negb (bool_decide (Adjacency.room1 new = ""))
     && negb (bool_decide (Adjacency.room2 new = ""))
     && negb (bool_decide (Adjacency.room1 new = Adjacency.room2 new))
  then
    let exists_ := existsb (samePair new) (adjacencies s) in
    if negb exists_
    then setNewAdjacency (Adjacency.mk "" "")
           (setAdjacencies (adjacencies s ++ [new]) s)
    else s
  else s.

Definition removeAdjacency (index : nat) (s : State) : State :=
  setAdjacencies (delete index (adjacencies s)) s.

(** The calls that [generateFloorPlan] makes to the back end, in order; the
    value is the object returned by [placeRooms]. *)
Definition callBackEnd (s : State) : Logged value :=
  mockPythonFunctions.createFloorPlan (regions s) ;;-
  forEach (rooms s) (λ room,
    mockPythonFunctions.addRoom (Room.name room) (Room.width room)
      (Room.height room) (Room.maxExpansion room)) ;;-
  forEach (adjacencies s) (λ adj,
    mockPythonFunctions.addAdjacency (Adjacency.room1 adj) (Adjacency.room2 adj)) ;;-
  mockPythonFunctions.placeRooms (Settings.maxAttempts (settings s))
    (Settings.enableExpansion (settings s)).

Definition generateFloorPlan (s : State) : State :=
  let '(result, out) := callBackEnd s in
  let s' := writeConsole out s in
  if truthy (getProp result "success")
  then setResults (getProp result "statistics") s'
  else s'.

(** The rewriting of one adjacency when a room is renamed: the first matching
    side is replaced and the function returns. *)
Definition renameIn (oldName newName : string) (adj : Adjacency.t) : Adjacency.t :=
  if bool_decide (Adjacency.room1 adj = oldName) then Adjacency.setRoom1 newName adj
  else if bool_decide (Adjacency.room2 adj = oldName) then Adjacency.setRoom2 newName adj
  else adj.

(** [onChange] of the name field of the room at [index].  The handler is
    created by [rooms.map], so [index] is in range when it runs. *)
Definition renameRoom (index : nat) (newName : string) (s : State) : option State :=
  room ← rooms s !! index;
  let oldName := Room.name room in
  let updatedRooms := <[index := Room.setName newName room]> (rooms s) in
  let s' := setRooms updatedRooms s in
  Some (if negb (bool_decide (oldName = ""))
        then setAdjacencies (renameIn oldName newName <$> adjacencies s) s'
        else s').

(** [onChange] of the two selectors of a new adjacency. *)
Definition selectNewRoom1 (v : string) (s : State) : State :=
  setNewAdjacency (Adjacency.setRoom1 v (newAdjacency s)) s.
Definition selectNewRoom2 (v : string) (s : State) : State :=
  setNewAdjacency (Adjacency.setRoom2 v (newAdjacency s)) s.

(** [onChange] of the two selectors of the adjacency at [index]; as for
    [renameRoom], [index] is in range when the handler runs. *)
Definition changeAdjacencyRoom1 (index : nat) (v : string) (s : State) : option State :=
  adj ← adjacencies s !! index;
  Some (setAdjacencies (<[index := Adjacency.setRoom1 v adj]> (adjacencies s)) s).
Definition changeAdjacencyRoom2 (index : nat) (v : string) (s : State) : option State :=
  adj ← adjacencies s !! index;
  Some (setAdjacencies (<[index := Adjacency.setRoom2 v adj]> (adjacencies s)) s).

(** [onChange] of the Maximum Attempts field. *)
Definition changeMaxAttempts (v : string) (s : State) : State :=
  setSettings (Settings.setMaxAttempts (orDefault (parseInt v) 1000) (settings s)) s.

(** [onChange] of the Enable Room Expansion check box. *)
Definition changeEnableExpansion (checked : bool) (s : State) : State :=
  setSettings (Settings.setEnableExpansion checked (settings s)) s.

(** ** Notions of the specification used to state its claims *)

(** The natural number [n] as a JavaScript number (exact below 2^53). *)
Fixpoint floatOfNat (n : nat) : float :=
  match n with
  | O => 0%float
  | S m => (floatOfNat m + 1)%float
  end.

(** [l] is a subsequence of [k]: it lists some elements of [k] in the order
    of [k].  Executable counterpart of stdpp's [sublist]. *)
Fixpoint subsequenceb {A} `{EqDecision A} (l k : list A) : bool :=
  match l, k with
  | [], _ => true
  | _ :: _, [] => false
  | a :: l', b :: k' =>
      if decide (a = b) then subsequenceb l' k' else subsequenceb l k'
  end.

(** Sum of the rooms' base areas. *)
Definition roomsBaseArea (rs : list Room.t) : Z :=
  foldr Z.add 0 ((λ r, Room.width r * Room.height r) <$> rs).

(** The unit cell with lower corner [(i, j)] lies in the region. *)
Definition coversCell (i j : Z) (r : Region.t) : bool :=
  (Region.x r <=? i) && (i <? Region.x r + Region.width r)
  && (Region.y r <=? j) && (j <? Region.y r + Region.height r).

Definition lowest (f : Region.t → Z) (rs : list Region.t) : Z :=
  match rs with
  | [] => 0
  | r :: rest => foldr (λ r' m, Z.min (f r') m) (f r) rest
  end.

Definition highest (f : Region.t → Z) (rs : list Region.t) : Z :=
  match rs with
  | [] => 0
  | r :: rest => foldr (λ r' m, Z.max (f r') m) (f r) rest
  end.

(** Modelled from the spec: [FloorShape.totalArea], which the source does not
    implement.  It is the area of the union of the regions, overlaps counted
    once; the regions have integer coordinates, so it is the number of unit
    cells of the bounding box that some region covers. *)
Definition floorTotalArea (rs : list Region.t) : Z :=
  let x0 := lowest Region.x rs in
  let y0 := lowest Region.y rs in
  let x1 := highest (λ r, Region.x r + Region.width r) rs in
  let y1 := highest (λ r, Region.y r + Region.height r) rs in
  let cells := i ← seqZ x0 (x1 - x0); j ← seqZ y0 (y1 - y0); [(i, j)] in
  Z.of_nat (length (List.filter (λ c, existsb (coversCell c.1 c.2) rs) cells)).

Definition roomsExceedFloor (s : State) : Prop :=
  floorTotalArea (regions s) < roomsBaseArea (rooms s).

(** The names of the rooms of the room list. *)
Definition roomNames (s : State) : list string := Room.name <$> rooms s.

(** Referential integrity: both sides of every adjacency name a room of the
    room list. *)
Definition integrity (s : State) : Prop :=
  Forall (λ adj, Adjacency.room1 adj ∈ roomNames s ∧ Adjacency.room2 adj ∈ roomNames s)
         (adjacencies s).

Global Instance integrity_dec s : Decision (integrity s).
Proof. unfold integrity. apply _. Defined.

(** A handler keeps referential integrity. *)
Definition preservesIntegrity (handler : State → option State) : Prop :=
  ∀ s s', integrity s → handler s = Some s' → integrity s'.

(** What Scenario A of the specification expects of a result. *)
Definition scenarioA (r : value) : Prop :=
  getProp r "totalAdjacencies" = VNum 5
  ∧ (∃ k, getProp r "adjacencyScore" = VNum k
          ∧ (0 <=? k)%float = true ∧ (k <=? 5)%float = true)
  ∧ (∃ placed, getProp r "placedRooms" = VArr placed ∧ length placed = 5%nat)
  ∧ (∃ u, getProp r "spaceUtilization" = VNum u
          ∧ (0 <? u)%float = true ∧ (u <=? 1)%float = true).

(** The score counts the listed pairs. *)
Definition scoreCountsPairs (r : value) : Prop :=
  getProp r "adjacencyScore"
  = VNum (floatOfNat (length (pairsOf (getProp r "adjacentPairs")))).

(** The listed pairs are input requirements, in the order of the input. *)
Definition pairsFollowInput (adjs : list Adjacency.t) (r : value) : Prop :=
  sublist (pairsOf (getProp r "adjacentPairs")) (Adjacency.toPair <$> adjs).

(** The back end reports a failure and no result is stored. *)
Definition generationFails (s : State) : Prop :=
  truthy (getProp (callBackEnd s).1 "success") = false
  ∧ results (generateFloorPlan s) = results s.

(** Nothing is done: no call reaches the back end and no result is stored. *)
Definition rejectedBeforeWork (s : State) : Prop :=
  console (generateFloorPlan s) = console s
  ∧ results (generateFloorPlan s) = results s.

(** The console lines that one run of [generateFloorPlan] writes. *)
Definition regionsLine (s : State) : LogLine :=
  [LStr "Creating floor plan with regions:"; LRegions (regions s)].

Definition roomLine (room : Room.t) : LogLine :=
  [LStr ("Adding room: " +:+ Room.name room +:+ " (" +:+ numberToString (Room.width room)
         +:+ "x" +:+ numberToString (Room.height room) +:+ "), max expansion: "
         +:+ numberToString (Room.maxExpansion room))].

Definition adjacencyLine (adj : Adjacency.t) : LogLine :=
  [LStr ("Adding adjacency between " +:+ Adjacency.room1 adj +:+ " and "
         +:+ Adjacency.room2 adj)].

Definition placeLine (c : Settings.t) : LogLine :=
  [LStr ("Placing rooms with " +:+ numberToString (Settings.maxAttempts c)
         +:+ " attempts, expansion: " +:+ showBool (Settings.enableExpansion c))].

Definition generationLines (s : State) : list LogLine :=
  regionsLine s :: (roomLine <$> rooms s) ++ (adjacencyLine <$> adjacencies s)
  ++ [placeLine (settings s)].

(** The pair of the new adjacency is acceptable to [addAdjacency]: two
    distinct, non-empty names. *)
Definition wellFormedPair (a : Adjacency.t) : Prop :=
  Adjacency.room1 a ≠ "" ∧ Adjacency.room2 a ≠ "" ∧ Adjacency.room1 a ≠ Adjacency.room2 a.


(** The only outward effect of a generation is the stored result. *)
Definition onlyEffectIsResult (s : State) : Prop :=
  ∃ r, generateFloorPlan s = setResults r s.

(** [addAdjacency] appends the new pair to the list. *)
Definition pairAccepted (s : State) : Prop :=
  adjacencies (addAdjacency s) = adjacencies s ++ [newAdjacency s].

(** The new pair is in the list already, in either order. *)
Definition pairPresent (s : State) : Prop :=
  existsb (samePair (newAdjacency s)) (adjacencies s) = true.

(** No two entries of the list are the same unordered pair. *)
Fixpoint pairwiseDistinct (adjs : list Adjacency.t) : Prop :=
  match adjs with
  | [] => True
  | a :: rest => existsb (samePair a) rest = false ∧ pairwiseDistinct rest
  end.

(** The room at [index] can be renamed without loss: its name is not empty
    and no adjacency pairs it with itself. *)
Definition renameSafe (index : nat) (s : State) : Prop :=
  ∃ room, rooms s !! index = Some room
          ∧ Room.name room ≠ ""
          ∧ Forall (λ adj, ¬ (Adjacency.room1 adj = Room.name room
                              ∧ Adjacency.room2 adj = Room.name room))
                   (adjacencies s).

(** Both names selected for the new adjacency are names of rooms. *)
Definition selectionExists (s : State) : Prop :=
  Adjacency.room1 (newAdjacency s) ∈ roomNames s
  ∧ Adjacency.room2 (newAdjacency s) ∈ roomNames s.

(** ** Example states *)

(** A room of 30 by 30 is entered and added: the rooms need 994 square units
    and the floor has 200. *)
Definition crowdedState : State :=
  addRoom (setNewRoom (Room.mk "Hall" 30 30 0) initialState).

(** [-5] is typed into the Maximum Attempts field. *)
Definition negativeAttemptsState : State := changeMaxAttempts "-5" initialState.

(** Kitchen and Living Room are selected for a new adjacency; the list holds
    the pair in the other order. *)
Definition duplicatePairState : State :=
  selectNewRoom2 "Living Room" (selectNewRoom1 "Kitchen" initialState).

(** Dining and Bedroom are selected: a pair the list does not hold. *)
Definition freshPairState : State :=
  selectNewRoom2 "Bedroom" (selectNewRoom1 "Dining" initialState).


(** The state reached when the handler succeeds, the state itself when it
    throws. *)
Definition after (handler : State → option State) (s : State) : State :=
  default s (handler s).

(** The name of the Kitchen is deleted from its field. *)
Definition clearedNameState : State := after (renameRoom 1 "") initialState.

(** Kitchen and Bedroom are selected for a new adjacency, and then the
    Kitchen is removed from the room list. *)
Definition staleSelectionState : State :=
  after (removeRoom 1) (selectNewRoom2 "Bedroom" (selectNewRoom1 "Kitchen" initialState)).

(** The first adjacency is edited to pair the Living Room with itself. *)
Definition selfPairState : State :=
  after (changeAdjacencyRoom2 0 "Living Room") initialState.

(** ** The remaining handlers of the editor *)

(** [{ ...r, field: v }] for the numeric fields of a region and of a room. *)
Definition withX (v : Z) (r : Region.t) : Region.t :=
  Region.mk v (Region.y r) (Region.width r) (Region.height r).
Definition withY (v : Z) (r : Region.t) : Region.t :=
  Region.mk (Region.x r) v (Region.width r) (Region.height r).
Definition withWidth (v : Z) (r : Region.t) : Region.t :=
  Region.mk (Region.x r) (Region.y r) v (Region.height r).
Definition withHeight (v : Z) (r : Region.t) : Region.t :=
  Region.mk (Region.x r) (Region.y r) (Region.width r) v.

Definition withRoomWidth (v : Z) (r : Room.t) : Room.t :=
  Room.mk (Room.name r) v (Room.height r) (Room.maxExpansion r).
Definition withRoomHeight (v : Z) (r : Room.t) : Room.t :=
  Room.mk (Room.name r) (Room.width r) v (Room.maxExpansion r).
Definition withMaxExpansion (v : Z) (r : Room.t) : Room.t :=
  Room.mk (Room.name r) (Room.width r) (Room.height r) v.

(** [onChange] of a numeric field of the region at [index]:
    [updated[index].field = parseInt(e.target.value) || d].  The assignment
    throws when [index] is out of range. *)
Definition editRegion (field : Z → Region.t → Region.t) (d : Z)
    (index : nat) (v : string) (s : State) : option State :=
  region ← regions s !! index;
  Some (setRegions (<[index := field (orDefault (parseInt v) d) region]> (regions s)) s).

Definition changeRegionX : nat → string → State → option State := editRegion withX 0.
Definition changeRegionY : nat → string → State → option State := editRegion withY 0.
Definition changeRegionWidth : nat → string → State → option State :=
  editRegion withWidth 1.
Definition changeRegionHeight : nat → string → State → option State :=
  editRegion withHeight 1.

(** [onChange] of a numeric field of the region being entered. *)
Definition editNewRegion (field : Z → Region.t → Region.t) (d : Z)
    (v : string) (s : State) : State :=
  setNewRegion (field (orDefault (parseInt v) d) (newRegion s)) s.

Definition changeNewRegionX : string → State → State := editNewRegion withX 0.
Definition changeNewRegionY : string → State → State := editNewRegion withY 0.
Definition changeNewRegionWidth : string → State → State := editNewRegion withWidth 1.
Definition changeNewRegionHeight : string → State → State := editNewRegion withHeight 1.

(** [onChange] of a numeric field of the room at [index]. *)
Definition editRoom (field : Z → Room.t → Room.t) (d : Z)
    (index : nat) (v : string) (s : State) : option State :=
  room ← rooms s !! index;
  Some (setRooms (<[index := field (orDefault (parseInt v) d) room]> (rooms s)) s).

Definition changeRoomWidth : nat → string → State → option State :=
  editRoom withRoomWidth 1.
Definition changeRoomHeight : nat → string → State → option State :=
  editRoom withRoomHeight 1.
Definition changeRoomMaxExpansion : nat → string → State → option State :=
  editRoom withMaxExpansion 0.

(** [onChange] of the fields of the room being entered. *)
Definition changeNewRoomName (v : string) (s : State) : State :=
  setNewRoom (Room.setName v (newRoom s)) s.

Definition editNewRoom (field : Z → Room.t → Room.t) (d : Z)
    (v : string) (s : State) : State :=
  setNewRoom (field (orDefault (parseInt v) d) (newRoom s)) s.

Definition changeNewRoomWidth : string → State → State := editNewRoom withRoomWidth 1.
Definition changeNewRoomHeight : string → State → State := editNewRoom withRoomHeight 1.
Definition changeNewRoomMaxExpansion : string → State → State :=
  editNewRoom withMaxExpansion 0.

(** ** The page *)

(** The five buttons of the navigation column. *)
Inductive Tab : Type :=
  | FloorPlanTab | RoomsTab | AdjacencyTab | SettingsTab | ResultsTab.

Definition tabName (t : Tab) : string :=
  match t with
  | FloorPlanTab => "floorPlan"
  | RoomsTab => "rooms"
  | AdjacencyTab => "adjacency"
  | SettingsTab => "settings"
  | ResultsTab => "results"
  end.

(** The sections that the page renders: one conditional per section, in the
    order of the source. *)
Definition visibleSections (s : State) : list Tab :=
  (if bool_decide (activeTab s = "floorPlan") then [FloorPlanTab] else [])
  ++ (if bool_decide (activeTab s = "rooms") then [RoomsTab] else [])
  ++ (if bool_decide (activeTab s = "adjacency") then [AdjacencyTab] else [])
  ++ (if bool_decide (activeTab s = "settings") then [SettingsTab] else [])
  ++ (if bool_decide (activeTab s = "results") then [ResultsTab] else []).

(** The value of the option of a room selector that shows the room at
    [shown]. *)
Definition optionValue (s : State) (shown : nat) : option string :=
  Room.name <$> rooms s !! shown.

(** What the user can do on the page: every [onClick] and [onChange] of the
    source.  A text or number field delivers its text; a room selector
    delivers the name of one of the rooms listed, and the two selectors of a
    new adjacency also offer the empty value. *)
Inductive Event : Type :=
  | ClickTab (t : Tab)
  | ClickGenerate
  | EditRegionX (index : nat) (v : string)
  | EditRegionY (index : nat) (v : string)
  | EditRegionWidth (index : nat) (v : string)
  | EditRegionHeight (index : nat) (v : string)
  | ClickRemoveRegion (index : nat)
  | EditNewRegionX (v : string)
  | EditNewRegionY (v : string)
  | EditNewRegionWidth (v : string)
  | EditNewRegionHeight (v : string)
  | ClickAddRegion
  | EditRoomName (index : nat) (v : string)
  | EditRoomWidth (index : nat) (v : string)
  | EditRoomHeight (index : nat) (v : string)
  | EditRoomMaxExpansion (index : nat) (v : string)
  | ClickRemoveRoom (index : nat)
  | EditNewRoomName (v : string)
  | EditNewRoomWidth (v : string)
  | EditNewRoomHeight (v : string)
  | EditNewRoomMaxExpansion (v : string)
  | ClickAddRoom
  | SelectAdjacencyRoom1 (index shown : nat)
  | SelectAdjacencyRoom2 (index shown : nat)
  | ClickRemoveAdjacency (index : nat)
  | SelectNewRoom1 (choice : option nat)
  | SelectNewRoom2 (choice : option nat)
  | ClickAddAdjacency
  | EditMaxAttempts (v : string)
  | ToggleExpansion (checked : bool).

Global Instance Tab_eq_dec : EqDecision Tab.
Proof. solve_decision. Defined.
Global Instance Event_eq_dec : EqDecision Event.
Proof. solve_decision. Defined.

(** The value delivered by a selector of a new adjacency. *)
Definition choiceValue (s : State) (choice : option nat) : option string :=
  match choice with
  | None => Some ""
  | Some shown => optionValue s shown
  end.

(** The state after an event; an event whose handler throws, or that names a
    row or an option the page does not show, leaves the state as it is. *)
Definition handle (e : Event) (s : State) : State :=
  match e with
  | ClickTab t => setActiveTab (tabName t) s
  | ClickGenerate => generateFloorPlan s
  | EditRegionX index v => after (changeRegionX index v) s
  | EditRegionY index v => after (changeRegionY index v) s
  | EditRegionWidth index v => after (changeRegionWidth index v) s
  | EditRegionHeight index v => after (changeRegionHeight index v) s
  | ClickRemoveRegion index => removeRegion index s
  | EditNewRegionX v => changeNewRegionX v s
  | EditNewRegionY v => changeNewRegionY v s
  | EditNewRegionWidth v => changeNewRegionWidth v s
  | EditNewRegionHeight v => changeNewRegionHeight v s
  | ClickAddRegion => addRegion s
  | EditRoomName index v => after (renameRoom index v) s
  | EditRoomWidth index v => after (changeRoomWidth index v) s
  | EditRoomHeight index v => after (changeRoomHeight index v) s
  | EditRoomMaxExpansion index v => after (changeRoomMaxExpansion index v) s
  | ClickRemoveRoom index => after (removeRoom index) s
  | EditNewRoomName v => changeNewRoomName v s
  | EditNewRoomWidth v => changeNewRoomWidth v s
  | EditNewRoomHeight v => changeNewRoomHeight v s
  | EditNewRoomMaxExpansion v => changeNewRoomMaxExpansion v s
  | ClickAddRoom => addRoom s
  | SelectAdjacencyRoom1 index shown =>
      match optionValue s shown with
      | Some v => after (changeAdjacencyRoom1 index v) s
      | None => s
      end
  | SelectAdjacencyRoom2 index shown =>
      match optionValue s shown with
      | Some v => after (changeAdjacencyRoom2 index v) s
      | None => s
      end
  | ClickRemoveAdjacency index => removeAdjacency index s
  | SelectNewRoom1 choice =>
      match choiceValue s choice with
      | Some v => selectNewRoom1 v s
      | None => s
      end
  | SelectNewRoom2 choice =>
      match choiceValue s choice with
      | Some v => selectNewRoom2 v s
      | None => s
      end
  | ClickAddAdjacency => addAdjacency s
  | EditMaxAttempts v => changeMaxAttempts v s
  | ToggleExpansion checked => changeEnableExpansion checked s
  end.

(** The state after a sequence of events, the first of the list first. *)
Fixpoint run (events : list Event) (s : State) : State :=
  match events with
  | [] => s
  | e :: rest => run rest (handle e s)
  end.

(** The tab that an event selects, if it is a click on a tab. *)
Definition clickedTab (e : Event) : option Tab :=
  match e with
  | ClickTab t => Some t
  | _ => None
  end.

(** ** Texts typed into a number field *)

(** The string does not start with [x] or [X]: after a leading [0] it does
    not announce a hexadecimal number. *)
Definition headNotX (s : string) : Prop :=
  match s with
  | String c _ => c ≠ "x"%char ∧ c ≠ "X"%char
  | EmptyString => True
  end.

(** The text does not start with a number: after its leading white space
    nothing is left, or a character that is neither a digit nor a sign. *)
Definition notNumeric (v : string) : Prop :=
  match trimStart v with
  | String c _ => isDigit c = false ∧ c ≠ "-"%char ∧ c ≠ "+"%char
  | EmptyString => True
  end.

(** ** Invariants of the editor *)

(** No size is zero: in the region list, in the room list, and in the region
    and the room being entered. *)
Definition regionNonzero (r : Region.t) : Prop :=
  Region.width r ≠ 0 ∧ Region.height r ≠ 0.
Definition roomNonzero (r : Room.t) : Prop :=
  Room.width r ≠ 0 ∧ Room.height r ≠ 0.
Definition sizesNonzero (s : State) : Prop :=
  Forall regionNonzero (regions s) ∧ Forall roomNonzero (rooms s)
  ∧ regionNonzero (newRegion s) ∧ roomNonzero (newRoom s).

(** The adjacency list is tidy: every pair is well formed and no unordered
    pair is listed twice. *)
Definition tidy (adjs : list Adjacency.t) : Prop :=
  Forall wellFormedPair adjs ∧ pairwiseDistinct adjs.

(** The names selected for a new adjacency are values that the selectors
    offer: the empty value or the name of a room. *)
Definition selectionOffered (s : State) : Prop :=
  Adjacency.room1 (newAdjacency s) ∈ "" :: roomNames s
  ∧ Adjacency.room2 (newAdjacency s) ∈ "" :: roomNames s.

(** The event renames a room or adds an adjacency. *)
Definition renamesOrAddsAdjacency (e : Event) : bool :=
  match e with
  | EditRoomName _ _ | ClickAddAdjacency => true
  | _ => false
  end.

(** The event renames or removes a room. *)
Definition renamesOrRemovesRoom (e : Event) : bool :=
  match e with
  | EditRoomName _ _ | ClickRemoveRoom _ => true
  | _ => false
  end.

(** No adjacency mentions the name [n]. *)
Definition unmentioned (n : string) (adjs : list Adjacency.t) : Prop :=
  Forall (λ adj, Adjacency.room1 adj ≠ n ∧ Adjacency.room2 adj ≠ n) adjs.

(** * Properties *)

Example parseInt_examples :
  parseInt "42" = Some 42 /\ parseInt "  -17px" = Some (-17) /\
  parseInt "0x1F" = Some 31 /\ parseInt "1e3" = Some 1 /\
  parseInt "" = None /\ parseInt "-" = None /\ parseInt "abc" = None.
Proof. repeat split; reflexivity. Qed.



(** ** The writer of console lines *)

Section Logged.
Context {A B : Type}.

Lemma bind_value (m : Logged A) (k : A → Logged B) : (m >>- k).1 = (k m.1).1.
Proof. unfold bind. by destruct (k m.1). Qed.

Lemma bind_lines (m : Logged A) (k : A → Logged B) :
  (m >>- k).2 = m.2 ++ (k m.1).2.
Proof. unfold bind. by destruct (k m.1). Qed.

End Logged.

Lemma forEach_lines {A} (xs : list A) (f : A → Logged value) (line : A → LogLine) :
  (∀ a, (f a).2 = [line a]) → (forEach xs f).2 = line <$> xs.
Proof.
  intros Hf. induction xs as [|a xs IH]; [done|].
  cbn [forEach]. rewrite bind_lines, Hf, IH. done.
Qed.

(** ** What one generation does *)

Lemma callBackEnd_value s :
  (callBackEnd s).1
  = VObj [("success", VBool true); ("statistics", mockPythonFunctions.statistics)].
Proof. unfold callBackEnd. by rewrite !bind_value. Qed.

Lemma callBackEnd_lines s : (callBackEnd s).2 = generationLines s.
Proof.
  unfold callBackEnd, generationLines.
  rewrite !bind_lines.
  rewrite (forEach_lines _ _ roomLine) by done.
  rewrite (forEach_lines _ _ adjacencyLine) by done.
  done.
Qed.

Lemma generateFloorPlan_eq s :
  generateFloorPlan s
  = setResults mockPythonFunctions.statistics (writeConsole (generationLines s) s).
Proof.
  unfold generateFloorPlan.
  pose proof (callBackEnd_value s) as Hv. pose proof (callBackEnd_lines s) as Hl.
  destruct (callBackEnd s) as [result out]. simpl in Hv, Hl. by subst.
Qed.

Lemma results_generateFloorPlan s :
  results (generateFloorPlan s) = mockPythonFunctions.statistics.
Proof. by rewrite generateFloorPlan_eq. Qed.

Lemma console_generateFloorPlan s :
  console (generateFloorPlan s) = console s ++ generationLines s.
Proof. by rewrite generateFloorPlan_eq. Qed.

(** ** Scenario A *)

(** C1, as stated, fails: on the default input the stored result does not
    meet Scenario A, its [totalAdjacencies] being 7 and [placedRooms] being
    absent. *)
Lemma scenarioA_fails : ¬ scenarioA (results (generateFloorPlan initialState)).
Proof.
  rewrite results_generateFloorPlan. intros [Htotal _].
  apply (f_equal (λ v, match v with VNum n => (n =? 5)%float | _ => true end)) in Htotal.
  vm_compute in Htotal. discriminate.
Qed.

(** C1, amended: on the default input the stored result has
    [totalAdjacencies] 7, [adjacencyScore] 5 (between 0 and 5), no
    [placedRooms] property, and [spaceUtilization] 0.8 (in (0,1]). *)
Theorem scenarioA_mock :
  let r := results (generateFloorPlan initialState) in
  getProp r "totalAdjacencies" = VNum 7
  ∧ (∃ k, getProp r "adjacencyScore" = VNum k ∧ k = 5%float
          ∧ (0 <=? k)%float = true ∧ (k <=? 5)%float = true)
  ∧ getProp r "placedRooms" = VUndefined
  ∧ (∃ u, getProp r "spaceUtilization" = VNum u ∧ u = 0.8%float
          ∧ (0 <? u)%float = true ∧ (u <=? 1)%float = true).
Proof.
  cbv zeta. rewrite results_generateFloorPlan.
  split; [reflexivity|]. split; [by exists 5%float|].
  split; [reflexivity|]. by exists 0.8%float.
Qed.

(** ** Utilization *)

(** C3: in the result of every generation, [spaceUtilization] is the
    binary64 quotient of [roomArea] by [floorArea], hence within 1e-9 of it. *)
Theorem spaceUtilization_is_ratio s :
  let r := results (generateFloorPlan s) in
  ∃ floorArea roomArea u,
    getProp r "floorArea" = VNum floorArea
    ∧ getProp r "roomArea" = VNum roomArea
    ∧ getProp r "spaceUtilization" = VNum u
    ∧ u = (roomArea / floorArea)%float
    ∧ (abs (u - roomArea / floorArea) <=? 1e-9)%float = true.
Proof.
  cbv zeta. rewrite results_generateFloorPlan.
  exists 300%float, 240%float, 0.8%float. by repeat split.
Qed.

(** ** Adjacent pairs *)

Lemma sublist_subsequenceb {A} `{EqDecision A} (l k : list A) :
  sublist l k → subsequenceb l k = true.
Proof.
  revert l. induction k as [|b k IH]; intros l Hsub.
  - apply sublist_nil_r in Hsub as ->. done.
  - destruct l as [|a l]; [done|]. cbn [subsequenceb].
    apply sublist_cons_r in Hsub as [Hskip | (l' & Heq & Hrest)].
    + destruct (decide (a = b)); [|by apply IH].
      apply IH. etrans; [|exact Hskip]. by apply sublist_cons.
    + injection Heq as -> ->. by rewrite decide_True; [apply IH|].
Qed.

(** C2, as stated, fails: on the default input the listed pairs are not in
    the order of the input adjacency list. *)
Lemma adjacentPairs_not_in_input_order :
  let r := results (generateFloorPlan initialState) in
  ¬ (scoreCountsPairs r ∧ pairsFollowInput (adjacencies initialState) r).
Proof.
  cbv zeta. rewrite results_generateFloorPlan. intros [_ Hsub].
  apply sublist_subsequenceb in Hsub. vm_compute in Hsub. discriminate.
Qed.

(** C2, amended: in the result of every generation, [adjacencyScore] is the
    length of [adjacentPairs], and [adjacentPairs] is one fixed list whatever
    the input; on the default input it holds the pairs of the input adjacency
    list, in another order. *)
Theorem adjacentPairs_fixed :
  (∀ s, let r := results (generateFloorPlan s) in
        scoreCountsPairs r
        ∧ pairsOf (getProp r "adjacentPairs")
          = [ ("Living Room", "Kitchen"); ("Kitchen", "Dining");
              ("Bedroom", "Bathroom"); ("Living Room", "Bedroom");
              ("Bathroom", "Kitchen") ])
  ∧ pairsOf (getProp (results (generateFloorPlan initialState)) "adjacentPairs")
    ≡ₚ Adjacency.toPair <$> adjacencies initialState.
Proof.
  split.
  - intros s. cbv zeta. rewrite results_generateFloorPlan. by split.
  - rewrite results_generateFloorPlan. cbn.
    do 2 apply perm_skip. apply perm_swap.
Qed.

(** ** Rooms larger than the floor *)

(** C4, as stated, fails: with a 30 by 30 room added to the default input the
    rooms' base areas exceed the floor area, and the generation succeeds. *)
Lemma crowded_floor_succeeds :
  ¬ (roomsExceedFloor crowdedState → generationFails crowdedState).
Proof.
  intros Hclaim. destruct Hclaim as [Hfail _]; [by vm_compute|].
  rewrite callBackEnd_value in Hfail. discriminate.
Qed.

(** C4, amended: for every input in which the sum of the rooms' base areas
    exceeds the floor's total area, the back end still reports success and
    the fixed statistics are stored as the result. *)
Theorem generation_succeeds_when_rooms_exceed_floor s :
  roomsExceedFloor s →
  truthy (getProp (callBackEnd s).1 "success") = true
  ∧ results (generateFloorPlan s) = mockPythonFunctions.statistics.
Proof.
  intros _. split.
  - by rewrite callBackEnd_value.
  - apply results_generateFloorPlan.
Qed.

Lemma generation_succeeds_when_rooms_exceed_floor_witness :
  roomsExceedFloor crowdedState
  ∧ truthy (getProp (callBackEnd crowdedState).1 "success") = true
  ∧ results (generateFloorPlan crowdedState) = mockPythonFunctions.statistics.
Proof.
  split; [by vm_compute|].
  apply (generation_succeeds_when_rooms_exceed_floor crowdedState). by vm_compute.
Defined.

(** ** The attempt count *)

Lemma last_generationLines s : last (generationLines s) = Some (placeLine (settings s)).
Proof.
  unfold generationLines.
  rewrite app_comm_cons, app_assoc. apply last_snoc.
Qed.

Lemma orDefault_nonzero n d : d ≠ 0 → orDefault n d ≠ 0.
Proof.
  intros Hd. unfold orDefault. destruct n as [z|]; [|done].
  destruct (Z.eqb_spec z 0); done.
Qed.

(** C5, as stated, fails: with [-5] typed into the Maximum Attempts field the
    generation is not rejected; the back end is called and a result stored. *)
Lemma negative_attempts_not_rejected :
  ¬ (Settings.maxAttempts (settings negativeAttemptsState) ≤ 0
     → rejectedBeforeWork negativeAttemptsState).
Proof.
  intros Hclaim. destruct Hclaim as [_ Hresults]; [by vm_compute|].
  rewrite results_generateFloorPlan in Hresults. discriminate.
Qed.

(** C5, amended: a generation whose [maxAttempts] is 0 or negative is not
    rejected: all the calls to the back end are made, the last of them
    [placeRooms] with that very count, and the statistics are stored.  The
    only guard is in the settings field, which never stores 0. *)
Theorem nonpositive_attempts_run s :
  Settings.maxAttempts (settings s) ≤ 0 →
  console (generateFloorPlan s) = console s ++ generationLines s
  ∧ last (generationLines s) = Some (placeLine (settings s))
  ∧ results (generateFloorPlan s) = mockPythonFunctions.statistics
  ∧ (∀ v, Settings.maxAttempts (settings (changeMaxAttempts v s)) ≠ 0)
  ∧ (∀ v, parseInt v = None ∨ parseInt v = Some 0 →
          Settings.maxAttempts (settings (changeMaxAttempts v s)) = 1000).
Proof.
  intros _. split; [apply console_generateFloorPlan|].
  split; [apply last_generationLines|].
  split; [apply results_generateFloorPlan|]. split.
  - intros v. simpl. by apply orDefault_nonzero.
  - intros v [Hparse|Hparse]; simpl; by rewrite Hparse.
Qed.

Lemma nonpositive_attempts_run_witness :
  Settings.maxAttempts (settings negativeAttemptsState) ≤ 0
  ∧ last (console (generateFloorPlan negativeAttemptsState))
    = Some [LStr "Placing rooms with -5 attempts, expansion: true"].
Proof.
  split; [by vm_compute|].
  destruct (nonpositive_attempts_run negativeAttemptsState) as (Hc & Hl & _);
    [by vm_compute|].
  rewrite Hc, last_app, Hl. reflexivity.
Defined.

(** ** Frame *)

(** C7, as stated, fails: the stored result is not the only effect of a
    generation on the default input, the console having received lines. *)
Lemma generation_writes_console : ¬ onlyEffectIsResult initialState.
Proof.
  intros [r Heq]. apply (f_equal (λ s, length (console s))) in Heq.
  vm_compute in Heq. discriminate.
Qed.

(** C7, amended: a generation leaves the region list, the room list, the
    adjacency list and the settings as they were; its effects are the stored
    result and the lines written to the console: one for the regions, one
    per room, one per adjacency and one for the placement. *)
Theorem generation_frame s :
  let s' := generateFloorPlan s in
  regions s' = regions s ∧ rooms s' = rooms s
  ∧ adjacencies s' = adjacencies s ∧ settings s' = settings s
  ∧ s' = setResults (results s') (writeConsole (generationLines s) s)
  ∧ length (generationLines s) = (2 + length (rooms s) + length (adjacencies s))%nat.
Proof.
  cbv zeta. rewrite generateFloorPlan_eq. repeat split.
  unfold generationLines. cbn [length].
  rewrite !length_app, !length_fmap. cbn [length]. lia.
Qed.

(** ** Duplicate adjacencies *)

Lemma samePair_sym a b : samePair a b = samePair b a.
Proof.
  unfold samePair. repeat case_bool_decide; simpl; try done; congruence.
Qed.

Lemma pairwiseDistinct_snoc adjs new :
  pairwiseDistinct adjs → existsb (samePair new) adjs = false →
  pairwiseDistinct (adjs ++ [new]).
Proof.
  induction adjs as [|a adjs IH]; simpl; [done|].
  intros [Ha Hrest] [Hnew Hothers]%orb_false_iff. split; [|by apply IH].
  rewrite existsb_app, Ha. simpl. by rewrite samePair_sym, Hnew.
Qed.

(** C6, as stated, fails: with Kitchen and Living Room selected, a pair the
    default list holds in the other order, [addAdjacency] does not append. *)
Lemma duplicate_pair_not_accepted :
  ¬ (wellFormedPair (newAdjacency duplicatePairState)
     → pairPresent duplicatePairState
     → pairAccepted duplicatePairState).
Proof.
  intros Hclaim. unfold pairAccepted in Hclaim.
  apply (f_equal length) in Hclaim; [vm_compute in Hclaim; discriminate|..].
  - by repeat split.
  - reflexivity.
Qed.

(** C6, amended: adding an adjacency whose unordered pair of room names
    already appears in the adjacency list is refused at insertion time, the
    state being left as it is; hence a list without two entries for one
    unordered pair stays so under [addAdjacency]. *)
Theorem addAdjacency_refuses_duplicate s :
  (pairPresent s → addAdjacency s = s)
  ∧ (pairwiseDistinct (adjacencies s) → pairwiseDistinct (adjacencies (addAdjacency s))).
Proof.
  unfold pairPresent, addAdjacency. split.
  - intros ->. by destruct (_ && _).
  - intros Hdistinct. destruct (_ && _); [|done].
    destruct (existsb _ _) eqn:Hexists; [done|]. simpl.
    by apply pairwiseDistinct_snoc.
Qed.

Lemma addAdjacency_refuses_duplicate_witness :
  pairPresent duplicatePairState
  ∧ addAdjacency duplicatePairState = duplicatePairState
  ∧ pairwiseDistinct (adjacencies (addAdjacency freshPairState)).
Proof.
  split; [reflexivity|]. split.
  - apply (addAdjacency_refuses_duplicate duplicatePairState). reflexivity.
  - apply (addAdjacency_refuses_duplicate freshPairState). by vm_compute.
Defined.

(** A pair that is well formed and not yet present is appended. *)
Lemma addAdjacency_accepts_fresh s :
  wellFormedPair (newAdjacency s) → ¬ pairPresent s → pairAccepted s.
Proof.
  unfold wellFormedPair, pairPresent, pairAccepted, addAdjacency.
  intros (H1 & H2 & H12) Hfresh%not_true_is_false.
  rewrite !bool_decide_false by done. simpl. by rewrite Hfresh.
Qed.

(** ** Referential integrity *)

(** A decidable proposition about a concrete state, settled by evaluation. *)
Ltac by_decision := apply (bool_decide_unpack _); vm_compute; exact I.

Section RoomNames.
Variables (rs : list Room.t) (index : nat) (room : Room.t).
Hypothesis Hroom : rs !! index = Some room.

Lemma roomNames_delete n :
  n ∈ Room.name <$> rs → n ≠ Room.name room → n ∈ Room.name <$> delete index rs.
Proof.
  intros Hn Hne. rewrite delete_take_drop, fmap_app, elem_of_app.
  rewrite <- (take_drop_middle rs index room Hroom) in Hn.
  rewrite fmap_app, fmap_cons, elem_of_app, elem_of_cons in Hn.
  destruct Hn as [?|[?|?]]; [by left|done|by right].
Qed.

Lemma roomNames_insert_other room' n :
  n ∈ Room.name <$> rs → n ≠ Room.name room →
  n ∈ Room.name <$> <[index := room']> rs.
Proof.
  intros Hn Hne.
  rewrite insert_take_drop by (by eapply lookup_lt_Some).
  rewrite fmap_app, fmap_cons, elem_of_app, elem_of_cons.
  rewrite <- (take_drop_middle rs index room Hroom) in Hn.
  rewrite fmap_app, fmap_cons, elem_of_app, elem_of_cons in Hn.
  destruct Hn as [?|[?|?]]; [by left|done|by right; right].
Qed.

Lemma roomNames_insert_new room' :
  Room.name room' ∈ Room.name <$> <[index := room']> rs.
Proof.
  apply list_elem_of_fmap_2, list_elem_of_insert. by eapply lookup_lt_Some.
Qed.
End RoomNames.

Lemma removeRoom_integrity index : preservesIntegrity (removeRoom index).
Proof.
  intros s s' Hinv Hremove. unfold removeRoom in Hremove.
  destruct (rooms s !! index) as [room|] eqn:Hroom; simplify_eq/=.
  unfold integrity, roomNames in *. simpl.
  apply Forall_forall. intros adj [[Hne1 Hne2] Hadj]%list_elem_of_filter.
  rewrite Forall_forall in Hinv. destruct (Hinv adj Hadj) as [Hin1 Hin2].
  split; by eapply roomNames_delete.
Qed.

Lemma removeRoom_deletes index room s s' :
  rooms s !! index = Some room → removeRoom index s = Some s' →
  Forall (λ adj, Adjacency.room1 adj ≠ Room.name room
                 ∧ Adjacency.room2 adj ≠ Room.name room) (adjacencies s').
Proof.
  intros Hroom Hremove. unfold removeRoom in Hremove.
  rewrite Hroom in Hremove. simplify_eq/=.
  apply Forall_forall. by intros adj [Hne _]%list_elem_of_filter.
Qed.

Lemma renameRoom_integrity index newName s s' :
  integrity s → renameSafe index s → renameRoom index newName s = Some s' →
  integrity s'.
Proof.
  intros Hinv (room & Hroom & Hname & Hself) Hrename.
  unfold renameRoom in Hrename. rewrite Hroom in Hrename. simpl in Hrename.
  rewrite bool_decide_false in Hrename by done. simplify_eq/=.
  unfold integrity, roomNames in *. simpl.
  rewrite Forall_fmap. apply Forall_forall. intros adj Hadj.
  rewrite Forall_forall in Hinv, Hself.
  destruct (Hinv adj Hadj) as [Hin1 Hin2]. specialize (Hself adj Hadj).
  pose proof (roomNames_insert_new (rooms s) index room Hroom
                (Room.setName newName room)) as Hnew.
  assert (∀ n, n ∈ Room.name <$> rooms s → n ≠ Room.name room →
               n ∈ Room.name <$> <[index := Room.setName newName room]> (rooms s))
    as Hother by (intros n; by apply roomNames_insert_other).
  unfold renameIn. simpl.
  destruct (decide (Adjacency.room1 adj = Room.name room)) as [Heq1|Hne1].
  - rewrite bool_decide_true by done. simpl. split; [done|].
    apply Hother; [done|]. intros Heq2. by apply Hself.
  - rewrite bool_decide_false by done.
    destruct (decide (Adjacency.room2 adj = Room.name room)) as [Heq2|Hne2].
    + rewrite bool_decide_true by done. simpl. split; [by apply Hother|done].
    + rewrite bool_decide_false by done. split; by apply Hother.
Qed.

Lemma addAdjacency_integrity s :
  integrity s → selectionExists s → integrity (addAdjacency s).
Proof.
  intros Hinv Hsel. unfold addAdjacency.
  destruct (_ && _); [|done]. destruct (negb _); [|done].
  unfold integrity, roomNames in *. simpl. by apply Forall_app, conj, Forall_singleton.
Qed.

(** C9, as stated, fails: renaming a room whose name field was cleared leaves
    the adjacencies that named it pointing at no room, and [addAdjacency]
    appends a selected pair whose room has since been removed. *)
Lemma integrity_not_preserved :
  ¬ (∀ index newName, preservesIntegrity (renameRoom index newName))
  ∧ ¬ preservesIntegrity (λ s, Some (addAdjacency s)).
Proof.
  split.
  - intros Hclaim.
    assert (integrity (after (renameRoom 1 "K") clearedNameState)) as Hinv.
    { apply (Hclaim 1%nat "K" clearedNameState); [by_decision|done]. }
    apply (bool_decide_pack _) in Hinv. vm_compute in Hinv. done.
  - intros Hclaim.
    assert (integrity (addAdjacency staleSelectionState)) as Hinv.
    { apply (Hclaim staleSelectionState); [by_decision|done]. }
    apply (bool_decide_pack _) in Hinv. vm_compute in Hinv. done.
Qed.

(** C9, amended: referential integrity of the adjacency list is preserved by
    [removeRoom], which deletes every adjacency that mentions the name of the
    removed room; by renaming a room whose old name is not empty, when no
    adjacency pairs that room with itself; and by [addAdjacency] when both
    selected names are names of rooms of the room list.  A renaming rewrites
    the old name on the first matching side of every adjacency if the old
    name is not empty, and leaves the adjacency list untouched if it is
    empty; [addAdjacency] appends a well-formed pair that is not present
    whether or not its names are names of rooms. *)
Theorem integrity_preserved s :
  (integrity s →
   (∀ index room s',
      rooms s !! index = Some room → removeRoom index s = Some s' →
      integrity s'
      ∧ Forall (λ adj, Adjacency.room1 adj ≠ Room.name room
                       ∧ Adjacency.room2 adj ≠ Room.name room) (adjacencies s'))
   ∧ (∀ index newName s',
        renameSafe index s → renameRoom index newName s = Some s' → integrity s')
   ∧ (selectionExists s → integrity (addAdjacency s)))
  ∧ (∀ index room newName s',
       rooms s !! index = Some room → renameRoom index newName s = Some s' →
       rooms s' = <[index := Room.setName newName room]> (rooms s)
       ∧ (Room.name room = "" → adjacencies s' = adjacencies s)
       ∧ (Room.name room ≠ "" →
          adjacencies s' = renameIn (Room.name room) newName <$> adjacencies s))
  ∧ (wellFormedPair (newAdjacency s) → ¬ pairPresent s →
     adjacencies (addAdjacency s) = adjacencies s ++ [newAdjacency s]).
Proof.
  split; [|split].
  - intros Hinv. split; [|split].
    + intros index room s' Hroom Hremove. split.
      * by eapply removeRoom_integrity.
      * by eapply removeRoom_deletes.
    + intros index newName s'. by apply renameRoom_integrity.
    + by apply addAdjacency_integrity.
  - intros index room newName s' Hroom Hrename.
    unfold renameRoom in Hrename. rewrite Hroom in Hrename. simpl in Hrename.
    injection Hrename as <-. split; [|split].
    + by destruct (negb _).
    + intros ->. done.
    + intros Hname. by rewrite bool_decide_false.
  - apply addAdjacency_accepts_fresh.
Qed.

Lemma integrity_preserved_witness :
  integrity initialState
  ∧ integrity (after (removeRoom 1) initialState)
  ∧ integrity (after (renameRoom 1 "Pantry") initialState)
  ∧ integrity (addAdjacency freshPairState).
Proof.
  split; [by_decision|].
  destruct (integrity_preserved initialState) as [Hkept _].
  destruct Hkept as (Hremove & Hrename & _); [by_decision|].
  destruct (integrity_preserved freshPairState) as [Hfresh _].
  destruct Hfresh as (_ & _ & Hadd); [by_decision|].
  split; [|split].
  - by eapply (Hremove 1%nat).
  - apply (Hrename 1%nat "Pantry"); [|reflexivity].
    eexists. split; [reflexivity|]. split; [done|]. by_decision.
  - apply Hadd. split; by_decision.
Defined.

(** The early return of [renameIn]: an adjacency that pairs a room with
    itself keeps the old name on its second side, whatever the old name. *)
Example rename_self_pair :
  integrity selfPairState
  ∧ ¬ integrity (after (renameRoom 0 "Lounge") selfPairState).
Proof.
  split; [by_decision|].
  intros Hinv%(bool_decide_pack _). vm_compute in Hinv. done.
Qed.

(** ** The numbers of the editor *)

Lemma roundBinary64_safe z : - 2 ^ 53 ≤ z ≤ 2 ^ 53 → roundBinary64 z = z.
Proof.
  intros Hz.
  assert (Z.abs z < 2 ^ 53 ∨ z = 2 ^ 53 ∨ z = - 2 ^ 53) as [Hlt|[->| ->]] by lia;
    [|reflexivity..].
  unfold roundBinary64.
  assert (Z.log2 (Z.abs z) < 53) as Hlog.
  { destruct (Z.eq_dec (Z.abs z) 0) as [->|Hne]; [done|].
    apply Z.log2_lt_pow2; lia. }
  by rewrite (proj2 (Z.leb_le _ _)) by lia.
Qed.

Lemma roundBinary64_sgn z : Z.sgn (roundBinary64 z) = Z.sgn z.
Proof.
  unfold roundBinary64.
  destruct (Z.leb_spec (Z.log2 (Z.abs z) - 52) 0) as [Hsmall|Hlarge]; [done|].
  assert (0 < Z.abs z) as Hpos.
  { destruct (Z.eq_dec (Z.abs z) 0) as [Hzero|Hne]; [|lia].
    rewrite Hzero in Hlarge. simpl in Hlarge. lia. }
  pose proof (Z.log2_spec (Z.abs z) Hpos) as [Hlog _].
  set (e := Z.log2 (Z.abs z) - 52) in *.
  assert (0 < 2 ^ e) as Hpow by (apply Z.pow_pos_nonneg; lia).
  assert (1 ≤ Z.abs z / 2 ^ e) as Hq.
  { apply Z.div_le_lower_bound; [done|]. rewrite Z.mul_1_r.
    etrans; [|exact Hlog]. apply Z.pow_le_mono_r; lia. }
  set (q := Z.abs z / 2 ^ e) in *.
  set (q' := if Z.abs z mod 2 ^ e <? 2 ^ (e - 1) then q
             else if 2 ^ (e - 1) <? Z.abs z mod 2 ^ e then q + 1
             else if Z.even q then q else q + 1).
  assert (1 ≤ q') as Hq' by (unfold q'; repeat case_match; lia).
  assert (0 < Z.min (q' * 2 ^ e) Infinity) as Hmin.
  { apply Z.min_glb_lt; [nia|done]. }
  rewrite Z.sgn_mul, (Z.sgn_pos (Z.min _ _)) by done. lia.
Qed.

Lemma roundBinary64_zero z : roundBinary64 z = 0 ↔ z = 0.
Proof.
  split; [|by intros ->]. intros Hz.
  pose proof (roundBinary64_sgn z) as Hsgn. rewrite Hz in Hsgn.
  symmetry in Hsgn. by apply Z.sgn_null_iff.
Qed.

Lemma roundBinary64_negative z : z < 0 → roundBinary64 z < 0.
Proof.
  intros Hz. apply Z.sgn_neg_iff. rewrite roundBinary64_sgn. by apply Z.sgn_neg_iff.
Qed.

(** The rounding agrees with the IEEE 754 model of the Standard Library on
    integers around the first rounded values, on ties, on powers of ten and
    around the overflow threshold. *)
Example roundBinary64_checked :
  Forall (λ z, roundBinary64 z = roundBySpecFloat z
               ∧ roundBinary64 (- z) = roundBySpecFloat (- z))
    [ 0; 1; 5; 5000; 2 ^ 53 - 1; 2 ^ 53; 2 ^ 53 + 1; 2 ^ 53 + 2; 2 ^ 53 + 3;
      2 ^ 54 + 2; 2 ^ 54 + 6; 2 ^ 60 + 1; 10 ^ 21; 10 ^ 22; 10 ^ 23; 2 ^ 64;
      123456789012345678901234567890; 3 ^ 200; 7 ^ 300; 10 ^ 308; 10 ^ 309;
      2 ^ 1023; 2 ^ 1024 - 2 ^ 971; 2 ^ 1024 - 2 ^ 970 - 1; 2 ^ 1024 - 2 ^ 970;
      2 ^ 1024; 2 ^ 1100 ].
Proof.
  repeat (first [apply Forall_nil|apply Forall_cons|apply conj]);
    vm_compute; reflexivity.
Qed.

Example roundBinary64_examples :
  roundBinary64 (-9007199254740993) = -9007199254740992
  ∧ roundBinary64 9007199254740995 = 9007199254740996
  ∧ roundBinary64 (10 ^ 23) = 99999999999999991611392
  ∧ roundBinary64 (10 ^ 309) = Infinity.
Proof. repeat apply conj; vm_compute; reflexivity. Qed.

(** Number::toString on numbers of the editor. *)
Example numberToString_examples :
  numberToString 0 = "0" ∧ numberToString (-5) = "-5"
  ∧ numberToString (2 ^ 53) = "9007199254740992"
  ∧ numberToString (2 ^ 53 + 2) = "9007199254740994"
  ∧ numberToString (2 ^ 64) = "18446744073709552000"
  ∧ numberToString (10 ^ 20) = "100000000000000000000"
  ∧ numberToString (10 ^ 21) = "1e+21"
  ∧ numberToString (- 10 ^ 21) = "-1e+21"
  ∧ numberToString (2 ^ 70) = "1.1805916207174113e+21"
  ∧ numberToString (roundBinary64 (10 ^ 23)) = "1e+23"
  ∧ numberToString (2 ^ 1023) = "8.98846567431158e+307"
  ∧ numberToString (2 ^ 1024 - 2 ^ 971) = "1.7976931348623157e+308"
  ∧ numberToString Infinity = "Infinity"
  ∧ numberToString (- Infinity) = "-Infinity".
Proof. repeat apply conj; vm_compute; reflexivity. Qed.

Lemma numberToString_safe z : - 2 ^ 53 ≤ z ≤ 2 ^ 53 → numberToString z = pretty z.
Proof.
  intros Hz. unfold numberToString, positiveToString.
  destruct (Z.ltb_spec z 0) as [Hneg|Hpos].
  - rewrite (proj2 (Z.leb_le _ _)) by lia. by destruct z.
  - by rewrite (proj2 (Z.leb_le _ _)) by lia.
Qed.

(** ** The Maximum Attempts field *)

(** Case analysis on a character known to be a decimal digit. *)
Ltac destruct_digit c Hc :=
  destruct c as [[] [] [] [] [] [] [] []]; vm_compute in Hc; try discriminate Hc.

Lemma parseInt_unsigned c rest :
  allDigits (String c rest) = true →
  parseInt (String c rest) = roundBinary64 <$> parseDigits 10 (String c rest) None.
Proof.
  cbn [allDigits]. intros [Hc Hrest]%andb_true_iff.
  transitivity ((λ mathInt, roundBinary64 (1 * mathInt))
                  <$> parseDigits 10 (String c rest) None).
  - destruct_digit c Hc; try reflexivity.
    destruct rest as [|c' rest']; [reflexivity|].
    cbn [allDigits] in Hrest. apply andb_true_iff in Hrest as [Hc' _].
    destruct_digit c' Hc'; reflexivity.
  - destruct (parseDigits _ _ _) as [z|]; [|done]. cbn [fmap option_fmap option_map].
    by rewrite Z.mul_1_l.
Qed.

Lemma parseInt_negative c rest :
  allDigits (String c rest) = true →
  parseInt (String "-" (String c rest))
  = (λ mathInt, roundBinary64 (- mathInt)) <$> parseDigits 10 (String c rest) None.
Proof.
  cbn [allDigits]. intros [Hc Hrest]%andb_true_iff.
  transitivity ((λ mathInt, roundBinary64 (-1 * mathInt))
                  <$> parseDigits 10 (String c rest) None).
  - destruct_digit c Hc; try reflexivity.
    destruct rest as [|c' rest']; [reflexivity|].
    cbn [allDigits] in Hrest. apply andb_true_iff in Hrest as [Hc' _].
    destruct_digit c' Hc'; reflexivity.
  - destruct (parseDigits _ _ _) as [z|]; [|done]. cbn [fmap option_fmap option_map].
    do 2 f_equal; lia.
Qed.

Lemma digitValue_pretty_N_char d :
  (d < 10)%N →
  digitValue (pretty_N_char d) = Some (Z.of_N d)
  ∧ isDigit (pretty_N_char d) = true.
Proof.
  intros Hd.
  assert (d = 0 ∨ d = 1 ∨ d = 2 ∨ d = 3 ∨ d = 4 ∨ d = 5 ∨ d = 6 ∨ d = 7
          ∨ d = 8 ∨ d = 9)%N as Hcases by lia.
  repeat (destruct Hcases as [->|Hcases]; [by split|]). by subst.
Qed.

Lemma allDigits_pretty_N_go x s :
  allDigits s = true → allDigits (pretty_N_go x s) = true.
Proof.
  revert s. induction (N.lt_wf_0 x) as [x _ IH]; intros s Hs.
  assert (x = 0 ∨ 0 < x)%N as [->|Hpos] by lia; [by rewrite pretty_N_go_0|].
  rewrite pretty_N_go_step by done. apply IH; [by apply N.div_lt|].
  cbn [allDigits]. rewrite Hs.
  by destruct (digitValue_pretty_N_char (x `mod` 10)) as [_ ->];
    [apply N.mod_lt|].
Qed.

(** Reading back the digits that [pretty_N_go] writes before [s]. *)
Lemma parseDigits_pretty_N_go x s acc :
  (0 < x)%N →
  ∃ k : nat,
    parseDigits 10 (pretty_N_go x s) acc
    = parseDigits 10 s (Some (default 0 acc * 10 ^ Z.of_nat k + Z.of_N x)).
Proof.
  revert s. induction (N.lt_wf_0 x) as [x _ IH]; intros s Hpos.
  rewrite pretty_N_go_step by done.
  destruct (digitValue_pretty_N_char (x `mod` 10)) as [Hd _]; [by apply N.mod_lt|].
  assert ((Z.of_N (x `mod` 10) <? 10) = true) as Hlt.
  { apply Z.ltb_lt. pose proof (N.mod_lt x 10). lia. }
  assert (Z.of_N x = 10 * Z.of_N (x `div` 10) + Z.of_N (x `mod` 10)) as Hx.
  { rewrite (N.div_mod x 10) at 1 by done. lia. }
  destruct (N.eq_0_gt_0_cases (x `div` 10)) as [Hzero|Hmore].
  - rewrite Hzero, pretty_N_go_0. exists 1%nat.
    cbn [parseDigits]. rewrite Hd, Hlt. do 2 f_equal. rewrite Hx, Hzero. lia.
  - destruct (IH (x `div` 10)%N) with (s := String (pretty_N_char (x `mod` 10)) s)
      as [k Hk]; [by apply N.div_lt|done|].
    exists (S k). rewrite Hk. cbn [parseDigits]. rewrite Hd, Hlt.
    do 2 f_equal. cbn [default]. unfold id.
    rewrite Hx, Nat2Z.inj_succ, Z.pow_succ_r by lia. ring.
Qed.

(** [parseInt] reads the decimal notation of an integer as the binary64
    number nearest to it: as the integer itself up to 2^53. *)
Lemma parseInt_pretty (z : Z) : parseInt (pretty z) = Some (roundBinary64 z).
Proof.
  assert (∀ p, ∃ c rest,
            pretty_N_go (N.pos p) "" = String c rest
            ∧ allDigits (String c rest) = true
            ∧ parseDigits 10 (String c rest) None = Some (Z.pos p)) as Hdigits.
  { intros p.
    destruct (parseDigits_pretty_N_go (N.pos p) "" None) as [k Hk]; [done|].
    pose proof (allDigits_pretty_N_go (N.pos p) "" eq_refl) as Hall.
    cbn [parseDigits default] in Hk.
    destruct (pretty_N_go (N.pos p) "") as [|c rest]; [done|].
    exists c, rest. split; [done|]. split; [done|]. rewrite Hk. f_equal; lia. }
  destruct z as [|p|p].
  - reflexivity.
  - destruct (Hdigits p) as (c & rest & Hstr & Hall & Hparse).
    change (pretty (Z.pos p)) with (pretty_N_go (N.pos p) "").
    by rewrite Hstr, parseInt_unsigned, Hparse.
  - destruct (Hdigits p) as (c & rest & Hstr & Hall & Hparse).
    change (pretty (Z.neg p)) with ("-" +:+ pretty_N_go (N.pos p) "").
    rewrite Hstr. change ("-" +:+ String c rest) with (String "-" (String c rest)).
    by rewrite parseInt_negative, Hparse.
Qed.

Example parseInt_rounds :
  parseInt "-9007199254740993" = Some (-9007199254740992)
  ∧ parseInt "9007199254740993" = Some 9007199254740992
  ∧ parseInt "1000000000000000000000" = Some (10 ^ 21)
  ∧ parseInt (pretty (10 ^ 309)) = Some Infinity
  ∧ parseInt (pretty (- 10 ^ 309)) = Some (- Infinity).
Proof. repeat apply conj; vm_compute; reflexivity. Qed.

(** White space of several bytes is skipped like white space of one byte:
    a no-break space (U+00A0), a byte order mark (U+FEFF), a line separator
    (U+2028) and an ideographic space (U+3000), written byte by byte. *)
Example parseInt_skips_wide_space :
  parseInt (String "194" (String "160" "5")) = Some 5
  ∧ parseInt (String "239" (String "187" (String "191" "-12"))) = Some (-12)
  ∧ parseInt (String "226" (String "128" (String "168"
               (String "227" (String "128" (String "128" " 7px")))))) = Some 7
  ∧ orDefault (parseInt (String "194" (String "160" "5"))) 1000 = 5
  ∧ parseInt (String "194" (String "161" "5")) = None.
Proof. repeat apply conj; vm_compute; reflexivity. Qed.

Lemma changeMaxAttempts_frame v s :
  regions (changeMaxAttempts v s) = regions s
  ∧ rooms (changeMaxAttempts v s) = rooms s
  ∧ adjacencies (changeMaxAttempts v s) = adjacencies s
  ∧ Settings.enableExpansion (settings (changeMaxAttempts v s))
    = Settings.enableExpansion (settings s).
Proof. done. Qed.

(** C10: the Maximum Attempts field stores [parseInt(v)] when that is a
    number other than zero and 1000 otherwise; so ["0"] and a text that is
    not a number store 1000, while the notation of any negative integer, such
    as ["-5"], stores a negative number: the binary64 number nearest to the
    integer, which is the integer itself down to -2^53.  The next generation
    hands that number to [placeRooms] as it is. *)
Theorem maxAttempts_field s :
  (∀ v n, parseInt v = Some n → n ≠ 0 →
          Settings.maxAttempts (settings (changeMaxAttempts v s)) = n)
  ∧ (∀ v, parseInt v = None ∨ parseInt v = Some 0 →
          Settings.maxAttempts (settings (changeMaxAttempts v s)) = 1000)
  ∧ Settings.maxAttempts (settings (changeMaxAttempts "0" s)) = 1000
  ∧ Settings.maxAttempts (settings (changeMaxAttempts "abc" s)) = 1000
  ∧ (∀ n, n < 0 →
          let s' := changeMaxAttempts (pretty n) s in
          Settings.maxAttempts (settings s') = roundBinary64 n
          ∧ Settings.maxAttempts (settings s') < 0
          ∧ (- 2 ^ 53 ≤ n → Settings.maxAttempts (settings s') = n)
          ∧ last (console (generateFloorPlan s'))
            = Some [LStr ("Placing rooms with " +:+ numberToString (roundBinary64 n)
                          +:+ " attempts, expansion: "
                          +:+ showBool (Settings.enableExpansion (settings s)))]
          ∧ (- 2 ^ 53 ≤ n →
             last (console (generateFloorPlan s'))
             = Some [LStr ("Placing rooms with " +:+ pretty n
                           +:+ " attempts, expansion: "
                           +:+ showBool (Settings.enableExpansion (settings s)))])
          ∧ results (generateFloorPlan s') = mockPythonFunctions.statistics).
Proof.
  assert (∀ v n, parseInt v = Some n → n ≠ 0 →
                 Settings.maxAttempts (settings (changeMaxAttempts v s)) = n)
    as Hstore.
  { intros v n Hparse Hn. simpl. rewrite Hparse. simpl.
    by destruct (Z.eqb_spec n 0). }
  split; [exact Hstore|]. split; [|split; [done|split; [done|]]].
  - intros v [Hparse|Hparse]; simpl; by rewrite Hparse.
  - intros n Hn. cbv zeta.
    pose proof (roundBinary64_negative n Hn) as Hneg.
    assert (Settings.maxAttempts (settings (changeMaxAttempts (pretty n) s))
            = roundBinary64 n)
      as Hstored by (apply Hstore; [apply parseInt_pretty|lia]).
    assert (last (console (generateFloorPlan (changeMaxAttempts (pretty n) s)))
            = Some [LStr ("Placing rooms with " +:+ numberToString (roundBinary64 n)
                          +:+ " attempts, expansion: "
                          +:+ showBool (Settings.enableExpansion (settings s)))])
      as Hlast.
    { rewrite console_generateFloorPlan, last_app, last_generationLines.
      unfold placeLine. by rewrite Hstored. }
    split; [exact Hstored|]. split; [by rewrite Hstored|].
    split; [intros Hsafe; rewrite Hstored; apply roundBinary64_safe; lia|].
    split; [exact Hlast|]. split; [|apply results_generateFloorPlan].
    intros Hsafe. rewrite Hlast, roundBinary64_safe by lia.
    by rewrite numberToString_safe by lia.
Qed.

Lemma maxAttempts_field_witness :
  parseInt "-5" = Some (-5)
  ∧ Settings.maxAttempts (settings (changeMaxAttempts "-5" initialState)) = -5
  ∧ last (console (generateFloorPlan (changeMaxAttempts "-5" initialState)))
    = Some [LStr "Placing rooms with -5 attempts, expansion: true"].
Proof.
  split; [reflexivity|].
  destruct (maxAttempts_field initialState) as (_ & _ & _ & _ & Hnegative).
  destruct (Hnegative (-5)) as (_ & _ & Hstored & _ & Hlast & _); [lia|].
  split; [apply Hstored|apply Hlast]; lia.
Defined.

(** ** Sequences of events *)

Lemma run_invariant (P : State → Prop) :
  (∀ e s, P s → P (handle e s)) → ∀ events s, P s → P (run events s).
Proof.
  intros Hstep events. induction events as [|e events IH]; intros s Hs; [done|].
  cbn [run]. by apply IH, Hstep.
Qed.

Lemma run_app events1 events2 s :
  run (events1 ++ events2) s = run events2 (run events1 s).
Proof. revert s. induction events1 as [|e events1 IH]; intros s; [done|]. apply IH. Qed.

(** Unfolds the handler of every event and splits on the rows looked up. *)
Ltac handler_cases :=
  unfold handle, after, changeRegionX, changeRegionY, changeRegionWidth,
    changeRegionHeight, editRegion, changeNewRegionX, changeNewRegionY,
    changeNewRegionWidth, changeNewRegionHeight, editNewRegion,
    changeRoomWidth, changeRoomHeight, changeRoomMaxExpansion, editRoom,
    changeNewRoomName, changeNewRoomWidth, changeNewRoomHeight,
    changeNewRoomMaxExpansion, editNewRoom, renameRoom, removeRoom,
    removeRegion, removeAdjacency, changeAdjacencyRoom1, changeAdjacencyRoom2,
    selectNewRoom1, selectNewRoom2, choiceValue, optionValue, addRegion,
    addRoom, addAdjacency, changeMaxAttempts, changeEnableExpansion;
  rewrite ?generateFloorPlan_eq;
  repeat (simpl;
          match goal with
          | |- context [?l !! ?i] =>
              lazymatch type of l with
              | list _ => destruct (l !! i) eqn:?
              end
          | |- context [if ?b then _ else _] => destruct b eqn:?
          | |- context [match ?c with Some _ => _ | None => _ end] =>
              is_var c; destruct c
          end);
  simpl.

(** X1: whatever the user does, the attempt count held by the settings is
    never zero. *)
Theorem maxAttempts_never_zero events :
  Settings.maxAttempts (settings (run events initialState)) ≠ 0.
Proof.
  apply (run_invariant (λ s, Settings.maxAttempts (settings s) ≠ 0)); [|done].
  intros e s Hs. destruct e; handler_cases; try done.
  by apply orDefault_nonzero.
Qed.

(** The row found at an index satisfies what every row satisfies. *)
Ltac row_facts :=
  repeat match goal with
         | Hrow : ?l !! ?i = Some ?r, Hall : Forall ?P ?l |- _ =>
             lazymatch goal with
             | _ : P r |- _ => fail
             | _ => pose proof (Forall_lookup_1 P l i r Hall Hrow)
             end
         end.

Lemma sizesNonzero_handle e s : sizesNonzero s → sizesNonzero (handle e s).
Proof.
  unfold sizesNonzero. intros (Hregions & Hrooms & Hregion & Hroom).
  destruct e; handler_cases; row_facts; repeat split; try done;
    try (by apply Forall_delete);
    try (apply Forall_insert; [done|]);
    try (apply Forall_app; split; [done|by apply Forall_singleton]);
    unfold regionNonzero, roomNonzero in *; simpl;
    try tauto; try (split; try tauto); by apply orDefault_nonzero.
Qed.

(** X2: whatever the user does, no region and no room of the lists, nor the
    region or the room being entered, has a width or a height of zero. *)
Theorem sizes_never_zero events : sizesNonzero (run events initialState).
Proof.
  apply run_invariant; [apply sizesNonzero_handle|].
  unfold sizesNonzero, initialState; simpl.
  repeat split; repeat constructor; done.
Qed.

(** X3: the Results section shows the statistics from the first generation
    on: the stored result is the statistics object if some event of the
    sequence is a click on Generate and [null] otherwise; no edit clears it. *)
Theorem results_after events :
  results (run events initialState)
  = if bool_decide (ClickGenerate ∈ events)
    then mockPythonFunctions.statistics else VNull.
Proof.
  assert (∀ e s, e ≠ ClickGenerate → results (handle e s) = results s) as Hkeep.
  { intros e s He. destruct e; handler_cases; done. }
  assert (∀ events s, results s = mockPythonFunctions.statistics →
                      results (run events s) = mockPythonFunctions.statistics)
    as Hstay.
  { intros evs s Hs. apply (run_invariant (λ s, results s = _)); [|done].
    intros e s' Hs'. destruct (decide (e = ClickGenerate)) as [->|He].
    - apply results_generateFloorPlan.
    - by rewrite Hkeep. }
  generalize initialState (eq_refl : results initialState = VNull).
  induction events as [|e events IH]; intros s Hs; [done|].
  cbn [run]. destruct (decide (e = ClickGenerate)) as [->|He].
  - rewrite bool_decide_true by left. apply Hstay, results_generateFloorPlan.
  - rewrite IH by (by rewrite Hkeep).
    rewrite (bool_decide_ext (ClickGenerate ∈ e :: events) (ClickGenerate ∈ events));
      [done|].
    rewrite elem_of_cons. split; [intros [Heq|Hin]|by right]; [by destruct He|done].
Qed.

(** X4: the console is only ever appended to, and only by a generation:
    the lines present before a sequence of events are a prefix of the lines
    after it, and a sequence without a click on Generate leaves the console
    and the stored result as they were. *)
Theorem console_grows events s :
  console s `prefix_of` console (run events s)
  ∧ (ClickGenerate ∉ events →
     console (run events s) = console s ∧ results (run events s) = results s).
Proof.
  assert (∀ e s, e ≠ ClickGenerate →
                 console (handle e s) = console s ∧ results (handle e s) = results s)
    as Hkeep.
  { intros e s' He. destruct e; handler_cases; done. }
  split.
  - revert s. induction events as [|e events IH]; intros s; [done|].
    cbn [run]. etrans; [|apply IH].
    destruct (decide (e = ClickGenerate)) as [->|He].
    + change (handle ClickGenerate s) with (generateFloorPlan s).
      rewrite console_generateFloorPlan. by apply prefix_app_r.
    + by destruct (Hkeep e s He) as [-> _].
  - revert s. induction events as [|e events IH]; intros s Hno; [done|].
    apply not_elem_of_cons in Hno as [He Hno]. cbn [run].
    destruct (IH (handle e s) Hno) as [-> ->]. by apply Hkeep.
Qed.

Lemma console_grows_witness :
  console (run [EditMaxAttempts "7"; ClickAddRegion; ClickTab ResultsTab]
               (generateFloorPlan initialState))
  = console (generateFloorPlan initialState).
Proof.
  apply (console_grows [EditMaxAttempts "7"; ClickAddRegion; ClickTab ResultsTab]
           (generateFloorPlan initialState)).
  rewrite !not_elem_of_cons. repeat split; try discriminate. apply not_elem_of_nil.
Defined.

(** X5: whatever the user does, the page shows exactly one section: the one
    of the tab clicked last, and the Floor Regions section before any tab is
    clicked.  A generation does not switch to the Results section. *)
Theorem one_section_visible events :
  ∃ t, activeTab (run events initialState) = tabName t
       ∧ visibleSections (run events initialState) = [t]
       ∧ Some t = last (FloorPlanTab :: omap clickedTab events).
Proof.
  cut (∀ s t0, activeTab s = tabName t0 →
         ∃ t, activeTab (run events s) = tabName t
              ∧ visibleSections (run events s) = [t]
              ∧ Some t = last (t0 :: omap clickedTab events)).
  { intros Hcut. by apply Hcut. }
  induction events as [|e events IH]; intros s t0 Hs.
  - exists t0. cbn [run]. split; [done|]. split; [|done].
    unfold visibleSections. rewrite Hs. by destruct t0.
  - cbn [run]. change (omap clickedTab (e :: events))
      with (match clickedTab e with
            | Some t' => t' :: omap clickedTab events
            | None => omap clickedTab events
            end).
    destruct (clickedTab e) as [t'|] eqn:He.
    + destruct e; try discriminate He. injection He as ->.
      destruct (IH (handle (ClickTab t') s) t') as (t & Ht & Hv & Hlast); [done|].
      exists t. split; [done|]. split; [done|]. by rewrite Hlast.
    + assert (activeTab (handle e s) = activeTab s) as Hkeep.
      { destruct e; try discriminate He; handler_cases; done. }
      apply IH. by rewrite Hkeep.
Qed.

(** ** Texts typed into the number fields *)

Lemma orDefault_zero n : orDefault (Some n) 0 = n.
Proof. simpl. by destruct (Z.eqb_spec n 0). Qed.

Lemma orDefault_round n d :
  orDefault (Some (roundBinary64 n)) d = if n =? 0 then d else roundBinary64 n.
Proof.
  unfold orDefault. destruct (Z.eqb_spec n 0) as [->|Hn]; [reflexivity|].
  destruct (Z.eqb_spec (roundBinary64 n) 0) as [Hzero|]; [|done].
  by apply (proj1 (roundBinary64_zero n)) in Hzero.
Qed.

(** X6: typing the decimal notation of an integer [n] into a field of the
    region at [index] stores, in that field of that region, the binary64
    number nearest to [n], whatever its sign: [n] itself when it is at most
    2^53 in absolute value.  A width or a height of 0 is replaced by 1.  The
    other regions are not touched, and a row that does not exist makes the
    handlers throw. *)
Theorem region_fields_store_entry s index n :
  (∀ region, regions s !! index = Some region →
     let stored := roundBinary64 n in
     let size := if n =? 0 then 1 else stored in
     regions <$> changeRegionX index (pretty n) s
     = Some (<[index := withX stored region]> (regions s))
     ∧ regions <$> changeRegionY index (pretty n) s
       = Some (<[index := withY stored region]> (regions s))
     ∧ regions <$> changeRegionWidth index (pretty n) s
       = Some (<[index := withWidth size region]> (regions s))
     ∧ regions <$> changeRegionHeight index (pretty n) s
       = Some (<[index := withHeight size region]> (regions s))
     ∧ (- 2 ^ 53 ≤ n ≤ 2 ^ 53 → stored = n))
  ∧ ((length (regions s) ≤ index)%nat →
     ∀ v, changeRegionX index v s = None ∧ changeRegionY index v s = None
          ∧ changeRegionWidth index v s = None
          ∧ changeRegionHeight index v s = None).
Proof.
  unfold changeRegionX, changeRegionY, changeRegionWidth, changeRegionHeight,
    editRegion.
  split.
  - intros region ->. cbv zeta. simpl.
    rewrite parseInt_pretty, orDefault_zero, orDefault_round.
    repeat split. apply roundBinary64_safe.
  - intros Hout%lookup_ge_None_2 v. by rewrite Hout.
Qed.

Lemma region_fields_store_entry_witness :
  regions <$> changeRegionWidth 1 "-3" initialState
  = Some [ Region.mk 0 0 5 15; Region.mk 5 0 (-3) 5; Region.mk 15 0 5 15 ]
  ∧ changeRegionWidth 3 "-3" initialState = None.
Proof.
  destruct (region_fields_store_entry initialState 1 (-3)) as [Hrow _].
  destruct (Hrow (Region.mk 5 0 10 5) eq_refl) as (_ & _ & Hwidth & _).
  destruct (region_fields_store_entry initialState 3 0) as [_ Hout].
  split; [exact Hwidth|]. apply (Hout ltac:(simpl; lia) "-3").
Defined.

(** X7: typing the decimal notation of an integer [n] into a numeric field
    of the room at [index] stores the binary64 number nearest to [n],
    whatever its sign: [n] itself when it is at most 2^53 in absolute value.
    A width or a height of 0 is replaced by 1; a negative expansion budget is
    stored as it is.  The name of the room and the other rooms are not
    touched. *)
Theorem room_fields_store_entry s index n room :
  rooms s !! index = Some room →
  let stored := roundBinary64 n in
  let size := if n =? 0 then 1 else stored in
  rooms <$> changeRoomWidth index (pretty n) s
  = Some (<[index := withRoomWidth size room]> (rooms s))
  ∧ rooms <$> changeRoomHeight index (pretty n) s
    = Some (<[index := withRoomHeight size room]> (rooms s))
  ∧ rooms <$> changeRoomMaxExpansion index (pretty n) s
    = Some (<[index := withMaxExpansion stored room]> (rooms s))
  ∧ roomNames (after (changeRoomMaxExpansion index (pretty n)) s) = roomNames s
  ∧ (- 2 ^ 53 ≤ n ≤ 2 ^ 53 → stored = n)
  ∧ (n < 0 → stored < 0).
Proof.
  unfold changeRoomWidth, changeRoomHeight, changeRoomMaxExpansion, editRoom,
    after, roomNames.
  intros Hroom. cbv zeta. rewrite Hroom. simpl.
  rewrite parseInt_pretty, orDefault_zero, orDefault_round. simpl.
  repeat split; [|apply roundBinary64_safe|apply roundBinary64_negative].
  rewrite list_fmap_insert. simpl. apply list_insert_id.
  by rewrite list_lookup_fmap, Hroom.
Qed.

Lemma room_fields_store_entry_witness :
  rooms <$> changeRoomMaxExpansion 4 "-2" initialState
  = Some [ Room.mk "Living Room" 6 4 10; Room.mk "Kitchen" 5 4 8;
           Room.mk "Dining" 4 4 6; Room.mk "Bedroom" 5 5 5;
           Room.mk "Bathroom" 3 3 (-2) ].
Proof.
  by destruct (room_fields_store_entry initialState 4 (-2) (Room.mk "Bathroom" 3 3 2)
                 eq_refl) as (_ & _ & Hbudget & _).
Defined.

(** Case analysis on a character of which a computed fact is known. *)
Ltac destruct_char c :=
  destruct c as [[] [] [] [] [] [] [] []];
  repeat match goal with
         | H : _ = _ |- _ => vm_compute in H; try discriminate H
         end.

Lemma parseInt_digit_first c tail :
  isDigit c = true → headNotX tail →
  parseInt (String c tail) = roundBinary64 <$> parseDigits 10 (String c tail) None
  ∧ parseInt (String "-" (String c tail))
    = (λ mathInt, roundBinary64 (- mathInt)) <$> parseDigits 10 (String c tail) None.
Proof.
  intros Hc Htail.
  assert (∀ o : option Z,
            (λ mathInt, roundBinary64 (1 * mathInt)) <$> o = roundBinary64 <$> o)
    as Hone.
  { intros [z|]; [|done]. cbn [fmap option_fmap option_map]. by rewrite Z.mul_1_l. }
  assert (∀ o : option Z,
            (λ mathInt, roundBinary64 (-1 * mathInt)) <$> o
            = (λ mathInt, roundBinary64 (- mathInt)) <$> o) as Hopp.
  { intros [z|]; [|done]. cbn [fmap option_fmap option_map]. do 2 f_equal; lia. }
  rewrite <- Hopp, <- Hone.
  destruct_digit c Hc; try (split; reflexivity).
  destruct tail as [|c' tail']; [split; reflexivity|].
  destruct Htail as [Hx HX].
  destruct c' as [[] [] [] [] [] [] [] []]; try (split; reflexivity);
    first [by destruct Hx|by destruct HX].
Qed.

Lemma isDigit_headNotX c s : isDigit c = true → headNotX (String c s).
Proof. intros Hc. destruct_digit c Hc; by split. Qed.

Lemma pretty_N_go_app x s t : pretty_N_go x s +:+ t = pretty_N_go x (s +:+ t).
Proof.
  revert s. induction (N.lt_wf_0 x) as [x _ IH]; intros s.
  destruct (N.eq_0_gt_0_cases x) as [->|Hpos]; [reflexivity|].
  rewrite (pretty_N_go_step x s), (pretty_N_go_step x (s +:+ t)) by done.
  rewrite IH by (by apply N.div_lt).
  reflexivity.
Qed.

Lemma pretty_N_go_head x s :
  (0 < x)%N → headNotX s →
  ∃ c tail, pretty_N_go x s = String c tail ∧ isDigit c = true ∧ headNotX tail.
Proof.
  revert s. induction (N.lt_wf_0 x) as [x _ IH]; intros s Hpos Hs.
  rewrite pretty_N_go_step by done.
  destruct (digitValue_pretty_N_char (x `mod` 10)) as [_ Hd]; [by apply N.mod_lt|].
  destruct (N.eq_0_gt_0_cases (x `div` 10)) as [Hzero|Hmore].
  - rewrite Hzero, pretty_N_go_0. eauto.
  - apply IH; [by apply N.div_lt|done|by apply isDigit_headNotX].
Qed.

Lemma digitValue_None_headNotX c rest : digitValue c = None → headNotX (String c rest).
Proof. intros Hc. split; intros ->; discriminate Hc. Qed.

(** [parseInt] reads the integer that a text starts with and ignores what
    follows it, from the first character that is neither a digit nor a
    letter. *)
Lemma parseInt_integer_part z c rest :
  digitValue c = None →
  parseInt (pretty z +:+ String c rest) = Some (roundBinary64 z).
Proof.
  intros Hc. pose proof (digitValue_None_headNotX c rest Hc) as Hhead.
  assert (∀ p, ∃ c0 tail,
            pretty_N_go (N.pos p) "" +:+ String c rest = String c0 tail
            ∧ isDigit c0 = true ∧ headNotX tail
            ∧ parseDigits 10 (String c0 tail) None = Some (Z.pos p)) as Hdigits.
  { intros p. rewrite pretty_N_go_app.
    change ("" +:+ String c rest) with (String c rest).
    destruct (pretty_N_go_head (N.pos p) (String c rest)) as (c0 & tail & Heq & ? & ?);
      [done..|].
    destruct (parseDigits_pretty_N_go (N.pos p) (String c rest) None) as [k Hk]; [done|].
    exists c0, tail. rewrite <- Heq, Hk. cbn [parseDigits default]. rewrite Hc.
    repeat split; try done; f_equal; lia. }
  destruct z as [|p|p].
  - change (pretty 0 +:+ String c rest) with (String "0" (String c rest)).
    destruct (parseInt_digit_first "0" (String c rest)) as [-> _]; [done..|].
    cbn [parseDigits default]. by rewrite Hc.
  - destruct (Hdigits p) as (c0 & tail & Heq & Hc0 & Htail & Hparse).
    change (pretty (Z.pos p)) with (pretty_N_go (N.pos p) "").
    rewrite Heq. destruct (parseInt_digit_first c0 tail) as [-> _]; [done..|].
    by rewrite Hparse.
  - destruct (Hdigits p) as (c0 & tail & Heq & Hc0 & Htail & Hparse).
    change (pretty (Z.neg p) +:+ String c rest)
      with (String "-" (pretty_N_go (N.pos p) "" +:+ String c rest)).
    rewrite Heq. destruct (parseInt_digit_first c0 tail) as [_ ->]; [done..|].
    by rewrite Hparse.
Qed.

(** X8: a number field keeps the integer part of what is typed: after the
    decimal notation of an integer other than zero, a tail that starts with a
    character that is neither a digit nor a letter (a decimal point, a space,
    a comma) is ignored, and the binary64 number nearest to the integer is
    stored as the attempt count: the integer itself when it is at most 2^53
    in absolute value. *)
Theorem fraction_is_dropped s z c rest :
  z ≠ 0 → digitValue c = None →
  let typed := pretty z +:+ String c rest in
  Settings.maxAttempts (settings (changeMaxAttempts typed s)) = roundBinary64 z
  ∧ (∀ d, orDefault (parseInt typed) d = roundBinary64 z)
  ∧ (- 2 ^ 53 ≤ z ≤ 2 ^ 53 →
     Settings.maxAttempts (settings (changeMaxAttempts typed s)) = z).
Proof.
  intros Hz Hc. cbv zeta.
  assert (∀ d, orDefault (parseInt (pretty z +:+ String c rest)) d = roundBinary64 z)
    as Hor.
  { intros d. rewrite parseInt_integer_part, orDefault_round by done.
    by destruct (Z.eqb_spec z 0). }
  split; [apply Hor|]. split; [exact Hor|].
  intros Hsafe. simpl. rewrite Hor. by apply roundBinary64_safe.
Qed.

Lemma fraction_is_dropped_witness :
  Settings.maxAttempts (settings (changeMaxAttempts "-42.75" initialState)) = -42.
Proof.
  destruct (fraction_is_dropped initialState (-42) "." "75") as (_ & _ & Hstored);
    [done..|].
  apply Hstored. lia.
Defined.

Lemma parseInt_notNumeric v : notNumeric v → parseInt v = None.
Proof.
  unfold notNumeric, parseInt. destruct (trimStart v) as [|c rest]; [done|].
  intros (Hdigit & Hminus & Hplus).
  destruct c as [[] [] [] [] [] [] [] []]; try discriminate Hdigit; try done.
Qed.

(** X9: a text that does not start with a number (after its leading white
    space, of one or of several bytes, nothing is left, or a character that
    is neither a digit nor a sign) makes every number field fall back to its
    default: 1000 attempts, a size of 1, a coordinate or a budget of 0; in
    the settings, in the two forms and in the rows of the two lists. *)
Theorem text_entry_stores_default v s :
  notNumeric v →
  Settings.maxAttempts (settings (changeMaxAttempts v s)) = 1000
  ∧ changeNewRegionX v s = setNewRegion (withX 0 (newRegion s)) s
  ∧ changeNewRegionY v s = setNewRegion (withY 0 (newRegion s)) s
  ∧ changeNewRegionWidth v s = setNewRegion (withWidth 1 (newRegion s)) s
  ∧ changeNewRegionHeight v s = setNewRegion (withHeight 1 (newRegion s)) s
  ∧ changeNewRoomWidth v s = setNewRoom (withRoomWidth 1 (newRoom s)) s
  ∧ changeNewRoomHeight v s = setNewRoom (withRoomHeight 1 (newRoom s)) s
  ∧ changeNewRoomMaxExpansion v s = setNewRoom (withMaxExpansion 0 (newRoom s)) s
  ∧ (∀ index region, regions s !! index = Some region →
       regions <$> changeRegionX index v s
       = Some (<[index := withX 0 region]> (regions s))
       ∧ regions <$> changeRegionY index v s
         = Some (<[index := withY 0 region]> (regions s))
       ∧ regions <$> changeRegionWidth index v s
         = Some (<[index := withWidth 1 region]> (regions s))
       ∧ regions <$> changeRegionHeight index v s
         = Some (<[index := withHeight 1 region]> (regions s)))
  ∧ (∀ index room, rooms s !! index = Some room →
       rooms <$> changeRoomWidth index v s
       = Some (<[index := withRoomWidth 1 room]> (rooms s))
       ∧ rooms <$> changeRoomHeight index v s
         = Some (<[index := withRoomHeight 1 room]> (rooms s))
       ∧ rooms <$> changeRoomMaxExpansion index v s
         = Some (<[index := withMaxExpansion 0 room]> (rooms s))).
Proof.
  intros Hv%parseInt_notNumeric.
  unfold changeMaxAttempts, changeNewRegionX, changeNewRegionY,
    changeNewRegionWidth, changeNewRegionHeight, changeNewRoomWidth,
    changeNewRoomHeight, changeNewRoomMaxExpansion, editNewRegion, editNewRoom,
    changeRegionX, changeRegionY, changeRegionWidth, changeRegionHeight,
    editRegion, changeRoomWidth, changeRoomHeight, changeRoomMaxExpansion,
    editRoom.
  rewrite Hv. do 8 (split; [done|]). split.
  - by intros index region ->.
  - by intros index room ->.
Qed.

Lemma text_entry_stores_default_witness :
  Settings.maxAttempts (settings (changeMaxAttempts ".5" initialState)) = 1000
  ∧ Region.width (newRegion (changeNewRegionWidth "wide" initialState)) = 1
  ∧ Settings.maxAttempts
      (settings (changeMaxAttempts (String "194" (String "160" "x5")) initialState))
    = 1000.
Proof.
  destruct (text_entry_stores_default ".5" initialState) as (Hattempts & _);
    [by repeat split|].
  destruct (text_entry_stores_default "wide" initialState)
    as (_ & _ & _ & Hwidth & _); [by repeat split|].
  destruct (text_entry_stores_default (String "194" (String "160" "x5")) initialState)
    as (Hwide & _); [by repeat split|].
  split; [exact Hattempts|]. split; [by rewrite Hwidth|exact Hwide].
Defined.

(** ** Adding and removing rows *)

Lemma delete_length_snoc {A} (l : list A) x : delete (length l) (l ++ [x]) = l.
Proof. rewrite delete_middle. apply app_nil_r. Qed.

Lemma delete_length {A} (l : list A) : delete (length l) l = l.
Proof. induction l as [|a l IH]; [done|]. simpl. by rewrite IH. Qed.

Lemma filter_Forall_id {A} (P : A → Prop) `{∀ a, Decision (P a)} (l : list A) :
  Forall P l → filter P l = l.
Proof.
  induction 1 as [|a l Ha _ IH]; [done|]. by rewrite filter_cons_True, IH.
Qed.

(** X10: a second click on the Add button of the room form or of the
    adjacency form does nothing: the form is emptied by the first click, and
    an empty form is refused. *)
Theorem second_click_adds_nothing s :
  addRoom (addRoom s) = addRoom s
  ∧ addAdjacency (addAdjacency s) = addAdjacency s.
Proof.
  split.
  - assert (addRoom s = s ∨ Room.name (newRoom (addRoom s)) = "") as [Hsame|Hempty].
    { unfold addRoom. destruct (_ && _); [by right|by left]. }
    + by rewrite !Hsame.
    + unfold addRoom at 1. by rewrite Hempty.
  - assert (addAdjacency s = s
            ∨ Adjacency.room1 (newAdjacency (addAdjacency s)) = "") as [Hsame|Hempty].
    { unfold addAdjacency. destruct (_ && _); [|by left].
      destruct (negb _); [by right|by left]. }
    + by rewrite !Hsame.
    + unfold addAdjacency at 1. by rewrite Hempty.
Qed.

(** X11: the region form is not emptied but reset to a 5 by 5 region at the
    origin, so a second click on its Add button adds that region: after two
    clicks the list ends with the region entered and the default region. *)
Theorem addRegion_twice s :
  0 < Region.width (newRegion s) → 0 < Region.height (newRegion s) →
  newRegion (addRegion s) = Region.mk 0 0 5 5
  ∧ regions (addRegion (addRegion s))
    = regions s ++ [newRegion s; Region.mk 0 0 5 5].
Proof.
  intros Hw%Z.ltb_lt Hh%Z.ltb_lt. unfold addRegion. rewrite Hw, Hh. simpl.
  split; [done|]. by rewrite <- app_assoc.
Qed.

Lemma addRegion_twice_witness :
  regions (addRegion (addRegion initialState))
  = regions initialState ++ [Region.mk 0 0 5 5; Region.mk 0 0 5 5].
Proof.
  by destruct (addRegion_twice initialState) as [_ Htwice].
Defined.

(** X12: after a click on Add, removing the row at the old length of the
    list gives back the state before the click, except for the form, which
    stays as the click left it: reset when the click added a row, untouched
    when the click was refused.  This holds for regions and for adjacencies;
    in particular the list is the list before the click. *)
Theorem add_then_remove_last s :
  removeRegion (length (regions s)) (addRegion s)
  = setNewRegion (newRegion (addRegion s)) s
  ∧ removeAdjacency (length (adjacencies s)) (addAdjacency s)
    = setNewAdjacency (newAdjacency (addAdjacency s)) s
  ∧ regions (removeRegion (length (regions s)) (addRegion s)) = regions s
  ∧ adjacencies (removeAdjacency (length (adjacencies s)) (addAdjacency s))
    = adjacencies s.
Proof.
  assert (removeRegion (length (regions s)) (addRegion s)
          = setNewRegion (newRegion (addRegion s)) s) as Hregion.
  { unfold removeRegion, addRegion. destruct (_ && _); simpl.
    - unfold setRegions, setNewRegion. simpl. by rewrite delete_length_snoc.
    - unfold setRegions, setNewRegion. rewrite delete_length. by destruct s. }
  assert (removeAdjacency (length (adjacencies s)) (addAdjacency s)
          = setNewAdjacency (newAdjacency (addAdjacency s)) s) as Hadjacency.
  { unfold removeAdjacency, addAdjacency.
    destruct (_ && _); simpl;
      [|unfold setAdjacencies, setNewAdjacency; rewrite delete_length; by destruct s].
    destruct (negb _); simpl.
    - unfold setAdjacencies, setNewAdjacency. simpl. by rewrite delete_length_snoc.
    - unfold setAdjacencies, setNewAdjacency. rewrite delete_length. by destruct s. }
  split; [exact Hregion|]. split; [exact Hadjacency|].
  by rewrite Hregion, Hadjacency.
Qed.

(** The form does not come back: 7 is typed as the X of a new region, the
    region is added and removed again, and the form shows 0. *)
Example add_then_remove_resets_form :
  let typed := changeNewRegionX "7" initialState in
  Region.x (newRegion typed) = 7
  ∧ Region.x (newRegion (removeRegion 3 (addRegion typed))) = 0
  ∧ regions (removeRegion 3 (addRegion typed)) = regions typed.
Proof. repeat apply conj; vm_compute; reflexivity. Qed.

(** X13: adding a room and removing it again restores the room list and the
    adjacency list, provided no adjacency mentions the name of the new room;
    [removeRoom] deletes by name, so otherwise the adjacencies of a namesake
    are deleted with it. *)
Theorem addRoom_then_remove s :
  unmentioned (Room.name (newRoom s)) (adjacencies s) →
  rooms (after (removeRoom (length (rooms s))) (addRoom s)) = rooms s
  ∧ adjacencies (after (removeRoom (length (rooms s))) (addRoom s)) = adjacencies s.
Proof.
  intros Hfree. unfold after, removeRoom, addRoom.
  destruct (_ && _); simpl.
  - rewrite list_lookup_middle by done. simpl.
    split; [apply delete_length_snoc|]. by apply filter_Forall_id.
  - by rewrite lookup_ge_None_2.
Qed.

Lemma addRoom_then_remove_witness :
  rooms (after (removeRoom 5) crowdedState) = rooms initialState
  ∧ adjacencies (after (removeRoom 5) crowdedState) = adjacencies initialState.
Proof.
  apply (addRoom_then_remove (setNewRoom (Room.mk "Hall" 30 30 0) initialState)).
  repeat constructor; discriminate.
Defined.

(** The adjacencies of a namesake are lost: a second Kitchen is added and
    removed again. *)
Example namesake_loses_adjacencies :
  let s := setNewRoom (Room.mk "Kitchen" 2 2 0) initialState in
  adjacencies (after (removeRoom 5) (addRoom s))
  = [Adjacency.mk "Living Room" "Bedroom"; Adjacency.mk "Bedroom" "Bathroom"].
Proof. reflexivity. Qed.

(** X14: [removeRoom] throws exactly when the index is past the end of the
    room list.  Otherwise the list loses one room and keeps the others in
    order, the adjacency list keeps, in order, exactly the adjacencies that
    do not mention the name of the removed room, and nothing else changes. *)
Theorem removeRoom_effect s index :
  (removeRoom index s = None ↔ (length (rooms s) ≤ index)%nat)
  ∧ ∀ room, rooms s !! index = Some room →
      ∃ s', removeRoom index s = Some s'
        ∧ rooms s' = delete index (rooms s)
        ∧ S (length (rooms s')) = length (rooms s)
        ∧ adjacencies s' `sublist_of` adjacencies s
        ∧ (∀ adj, adj ∈ adjacencies s'
                  ↔ adj ∈ adjacencies s
                    ∧ Adjacency.room1 adj ≠ Room.name room
                    ∧ Adjacency.room2 adj ≠ Room.name room)
        ∧ s' = setAdjacencies (adjacencies s') (setRooms (rooms s') s)
        ∧ adjacencies s'
          = filter (λ adj, Adjacency.room1 adj ≠ Room.name room
                           ∧ Adjacency.room2 adj ≠ Room.name room)
                   (adjacencies s).
Proof.
  unfold removeRoom. split.
  - rewrite <- lookup_ge_None. by destruct (rooms s !! index).
  - intros room Hroom. rewrite Hroom. simpl. eexists. split; [done|]. simpl.
    split; [done|]. split.
    { rewrite length_delete by eauto. apply lookup_lt_Some in Hroom. lia. }
    split; [apply sublist_filter|]. split; [|done].
    intros adj. rewrite list_elem_of_filter. tauto.
Qed.

Lemma removeRoom_effect_witness :
  removeRoom 5 initialState = None
  ∧ ∃ s', removeRoom 1 initialState = Some s'
          ∧ adjacencies s' = [ Adjacency.mk "Living Room" "Bedroom";
                               Adjacency.mk "Bedroom" "Bathroom" ].
Proof.
  destruct (removeRoom_effect initialState 5) as [Hthrows _].
  destruct (removeRoom_effect initialState 1) as [_ Hrow].
  destruct (Hrow (Room.mk "Kitchen" 5 4 8) eq_refl) as (s' & Hs' & _).
  split; [apply Hthrows; simpl; lia|].
  exists s'. split; [exact Hs'|]. by injection Hs' as <-.
Defined.

Lemma existsb_sublist {A} (f : A → bool) (l k : list A) :
  l `sublist_of` k → existsb f k = false → existsb f l = false.
Proof.
  induction 1 as [|a l k _ IH|a l k _ IH]; simpl; [done|..].
  - intros [-> Hk]%orb_false_iff. by rewrite IH.
  - intros [_ Hk]%orb_false_iff. by apply IH.
Qed.

Lemma pairwiseDistinct_sublist l k :
  l `sublist_of` k → pairwiseDistinct k → pairwiseDistinct l.
Proof.
  induction 1 as [|a l k Hsub IH|a l k Hsub IH]; simpl; [done|..].
  - intros [Ha Hk]. split; [by eapply existsb_sublist|by apply IH].
  - intros [_ Hk]. by apply IH.
Qed.

Lemma Forall_sublist_of {A} (P : A → Prop) (l k : list A) :
  l `sublist_of` k → Forall P k → Forall P l.
Proof.
  induction 1 as [|a l k _ IH|a l k _ IH]; [done|..];
    intros [Ha Hk]%Forall_cons; [constructor|]; auto.
Qed.

Lemma tidy_sublist l k : l `sublist_of` k → tidy k → tidy l.
Proof.
  intros Hsub [Hwf Hdistinct]. split.
  - by eapply Forall_sublist_of.
  - by eapply pairwiseDistinct_sublist.
Qed.

(** X15: the buttons keep the adjacency list tidy: if every pair of the list
    has two distinct, non-empty names and no unordered pair is listed twice,
    this still holds after [addAdjacency], [removeAdjacency] and
    [removeRoom]. *)
Theorem tidy_preserved s :
  tidy (adjacencies s) →
  tidy (adjacencies (addAdjacency s))
  ∧ (∀ index, tidy (adjacencies (removeAdjacency index s)))
  ∧ (∀ index, tidy (adjacencies (after (removeRoom index) s))).
Proof.
  intros Htidy. split; [|split].
  - unfold addAdjacency. destruct (_ && _) eqn:Hvalid; [|done].
    destruct (existsb _ _) eqn:Hexists; [done|]. simpl.
    destruct Htidy as [Hwf Hdistinct]. split; [|by apply pairwiseDistinct_snoc].
    apply Forall_app. split; [done|]. apply Forall_singleton.
    apply andb_true_iff in Hvalid as [[H1 H2]%andb_true_iff H12].
    apply negb_true_iff, bool_decide_eq_false in H1, H2, H12. done.
  - intros index. simpl. eapply tidy_sublist; [apply sublist_delete|done].
  - intros index. unfold after, removeRoom.
    destruct (rooms s !! index); simpl; [|done].
    eapply tidy_sublist; [apply sublist_filter|done].
Qed.

Lemma tidy_preserved_witness :
  tidy (adjacencies initialState)
  ∧ tidy (adjacencies (addAdjacency freshPairState))
  ∧ tidy (adjacencies (after (removeRoom 1) initialState)).
Proof.
  assert (tidy (adjacencies initialState)) as Htidy.
  { split; [repeat constructor; discriminate|by vm_compute]. }
  split; [exact Htidy|].
  destruct (tidy_preserved freshPairState Htidy) as (Hadd & _).
  destruct (tidy_preserved initialState Htidy) as (_ & _ & Hremove).
  split; [exact Hadd|apply Hremove].
Defined.

(** ** Integrity under the other events *)

Lemma roomNames_insert_same (rs : list Room.t) index room room' :
  rs !! index = Some room → Room.name room' = Room.name room →
  Room.name <$> <[index := room']> rs = Room.name <$> rs.
Proof.
  intros Hroom Hname. rewrite list_fmap_insert, Hname.
  apply list_insert_id. by rewrite list_lookup_fmap, Hroom.
Qed.

Lemma integrity_same_lists s s' :
  rooms s' = rooms s → adjacencies s' = adjacencies s →
  integrity s → integrity s'.
Proof. unfold integrity, roomNames. by intros -> ->. Qed.

Lemma integrity_select_row s index adj adj' :
  integrity s → adjacencies s !! index = Some adj →
  Adjacency.room1 adj' ∈ roomNames s → Adjacency.room2 adj' ∈ roomNames s →
  integrity (setAdjacencies (<[index := adj']> (adjacencies s)) s).
Proof.
  unfold integrity, roomNames. simpl. intros Hinv Hadj H1 H2.
  by apply Forall_insert.
Qed.

Lemma handle_integrity e s :
  (∀ index v, e ≠ EditRoomName index v) → e ≠ ClickAddAdjacency →
  integrity s → integrity (handle e s).
Proof.
  intros Hrename Hadd Hinv.
  destruct e; try (by destruct Hadd); try (by edestruct Hrename);
    try (by eapply integrity_same_lists; [..|exact Hinv]; handler_cases).
  - (* a numeric field of a room *)
    unfold handle, after, changeRoomWidth, editRoom.
    destruct (rooms s !! index) as [room|] eqn:Hroom; [|done]. simpl.
    unfold integrity, roomNames in *. simpl.
    by rewrite (roomNames_insert_same _ _ room).
  - unfold handle, after, changeRoomHeight, editRoom.
    destruct (rooms s !! index) as [room|] eqn:Hroom; [|done]. simpl.
    unfold integrity, roomNames in *. simpl.
    by rewrite (roomNames_insert_same _ _ room).
  - unfold handle, after, changeRoomMaxExpansion, editRoom.
    destruct (rooms s !! index) as [room|] eqn:Hroom; [|done]. simpl.
    unfold integrity, roomNames in *. simpl.
    by rewrite (roomNames_insert_same _ _ room).
  - (* the room is removed *)
    unfold handle, after.
    destruct (removeRoom index s) as [s'|] eqn:Hremove; [|done].
    by eapply removeRoom_integrity.
  - (* a room is added *)
    unfold handle, addRoom. destruct (_ && _); [|done].
    unfold integrity, roomNames in *. simpl. rewrite fmap_app.
    eapply Forall_impl; [exact Hinv|]. intros adj [H1 H2].
    split; apply elem_of_app; by left.
  - (* a selector of an adjacency row *)
    unfold handle, after, optionValue, changeAdjacencyRoom1.
    destruct (rooms s !! shown) as [room|] eqn:Hroom; [|done]. simpl.
    destruct (adjacencies s !! index) as [adj|] eqn:Hadj; [|done]. simpl.
    pose proof (Forall_lookup_1 _ _ _ _ Hinv Hadj) as [_ H2].
    apply (integrity_select_row s index adj); simpl; try done.
    unfold roomNames. apply list_elem_of_fmap_2. by eapply list_elem_of_lookup_2.
  - unfold handle, after, optionValue, changeAdjacencyRoom2.
    destruct (rooms s !! shown) as [room|] eqn:Hroom; [|done]. simpl.
    destruct (adjacencies s !! index) as [adj|] eqn:Hadj; [|done]. simpl.
    pose proof (Forall_lookup_1 _ _ _ _ Hinv Hadj) as [H1 _].
    apply (integrity_select_row s index adj); simpl; try done.
    unfold roomNames. apply list_elem_of_fmap_2. by eapply list_elem_of_lookup_2.
  - (* an adjacency is removed *)
    unfold handle, removeAdjacency, integrity, roomNames in *. simpl.
    by apply Forall_delete.
Qed.

(** X16: referential integrity of the adjacency list can be lost only by
    renaming a room or by adding an adjacency: from a state that has it,
    every sequence of other events of the page, the selectors of an adjacency
    row and the removal of a room included, leads to a state that has it. *)
Theorem integrity_kept_by_other_events events s :
  Forall (λ e, renamesOrAddsAdjacency e = false) events →
  integrity s → integrity (run events s).
Proof.
  revert s. induction events as [|e events IH]; intros s Hevents Hinv; [done|].
  apply Forall_cons in Hevents as [He Hevents]. cbn [run].
  apply IH; [done|]. apply handle_integrity; [| |done].
  - intros index v ->. discriminate He.
  - intros ->. discriminate He.
Qed.

Lemma integrity_kept_by_other_events_witness :
  integrity (run [SelectAdjacencyRoom2 0 0; ClickRemoveRoom 1; ClickAddRoom]
                 staleSelectionState).
Proof.
  apply integrity_kept_by_other_events; [by repeat constructor|by_decision].
Defined.

(** ** Renaming *)

Lemma renameIn_back oldName newName adj :
  Adjacency.room1 adj ≠ newName → Adjacency.room2 adj ≠ newName →
  renameIn newName oldName (renameIn oldName newName adj) = adj.
Proof.
  destruct adj as [a b]. unfold renameIn. simpl. intros Ha Hb.
  repeat (case_bool_decide; simpl in *); by simplify_eq.
Qed.

(** X17: renaming a room and renaming it back restores the state, if
    neither name is empty and no adjacency mentions the intermediate name
    beforehand. *)
Theorem rename_round_trip s index room newName :
  rooms s !! index = Some room →
  Room.name room ≠ "" → newName ≠ "" →
  unmentioned newName (adjacencies s) →
  renameRoom index newName s ≫= renameRoom index (Room.name room) = Some s.
Proof.
  intros Hroom Hold Hnew Hfree.
  assert (renameRoom index newName s
          = Some (setAdjacencies (renameIn (Room.name room) newName <$> adjacencies s)
                    (setRooms (<[index := Room.setName newName room]> (rooms s)) s)))
    as ->.
  { unfold renameRoom. rewrite Hroom. simpl. by rewrite bool_decide_false. }
  simpl. unfold renameRoom. simpl.
  rewrite list_lookup_insert_eq by (by eapply lookup_lt_Some). simpl.
  rewrite bool_decide_false by done. simpl.
  rewrite list_insert_insert_eq.
  assert (Room.setName (Room.name room) (Room.setName newName room) = room)
    as -> by (by destruct room).
  rewrite list_insert_id by done.
  assert (renameIn newName (Room.name room)
            <$> (renameIn (Room.name room) newName <$> adjacencies s)
          = adjacencies s) as ->.
  { rewrite <- list_fmap_compose. rewrite <- (list_fmap_id (adjacencies s)) at 2.
    apply Forall_fmap_ext_1. eapply Forall_impl; [exact Hfree|].
    intros adj [H1 H2]. by apply renameIn_back. }
  by destruct s.
Qed.

Lemma rename_round_trip_witness :
  renameRoom 1 "Pantry" initialState ≫= renameRoom 1 "Kitchen" = Some initialState.
Proof.
  apply (rename_round_trip initialState 1 (Room.mk "Kitchen" 5 4 8) "Pantry");
    try done.
  repeat constructor; discriminate.
Defined.

(** ** The order of the calls to the back end *)

(** X18: one generation calls the back end in a fixed order, which the lines
    it writes show: [createFloorPlan] with the regions first, then [addRoom]
    for every room in the order of the room list, then [addAdjacency] for
    every adjacency in the order of the adjacency list, and [placeRooms]
    last. *)
Theorem generation_call_order s :
  let out := (callBackEnd s).2 in
  out !! 0%nat = Some (regionsLine s)
  ∧ (∀ i room, rooms s !! i = Some room → out !! (1 + i)%nat = Some (roomLine room))
  ∧ (∀ j adj, adjacencies s !! j = Some adj →
       out !! (1 + length (rooms s) + j)%nat = Some (adjacencyLine adj))
  ∧ out !! (1 + length (rooms s) + length (adjacencies s))%nat
    = Some (placeLine (settings s))
  ∧ length out = (2 + length (rooms s) + length (adjacencies s))%nat.
Proof.
  cbv zeta. rewrite callBackEnd_lines. unfold generationLines.
  split; [done|]. split; [|split; [|split]].
  - intros i room Hroom. simpl. rewrite lookup_app_l.
    + by rewrite list_lookup_fmap, Hroom.
    + rewrite length_fmap. by eapply lookup_lt_Some.
  - intros j adj Hadj. simpl.
    rewrite lookup_app_r by (rewrite length_fmap; lia).
    rewrite length_fmap, Nat.add_comm, Nat.add_sub, lookup_app_l.
    + by rewrite list_lookup_fmap, Hadj.
    + rewrite length_fmap. by eapply lookup_lt_Some.
  - simpl. rewrite lookup_app_r by (rewrite length_fmap; lia).
    rewrite length_fmap, Nat.add_comm, Nat.add_sub.
    rewrite lookup_app_r by (rewrite length_fmap; lia).
    by rewrite length_fmap, Nat.sub_diag.
  - cbn [length]. rewrite !length_app, !length_fmap. simpl. lia.
Qed.

Lemma generation_call_order_witness :
  (callBackEnd initialState).2 !! 2%nat
  = Some [LStr "Adding room: Kitchen (5x4), max expansion: 8"]
  ∧ (callBackEnd initialState).2 !! 8%nat
    = Some [LStr "Adding adjacency between Living Room and Bedroom"].
Proof.
  destruct (generation_call_order initialState) as (_ & Hrooms & Hadjs & _).
  split.
  - apply (Hrooms 1%nat (Room.mk "Kitchen" 5 4 8)). reflexivity.
  - apply (Hadjs 2%nat (Adjacency.mk "Living Room" "Bedroom")). reflexivity.
Defined.

(** ** Adding an adjacency through the page *)

Lemma addAdjacency_fresh s :
  wellFormedPair (newAdjacency s) → ¬ pairPresent s →
  addAdjacency s
  = setNewAdjacency (Adjacency.mk "" "")
      (setAdjacencies (adjacencies s ++ [newAdjacency s]) s).
Proof.
  unfold wellFormedPair, pairPresent, addAdjacency.
  intros (H1 & H2 & H12) Hfresh%not_true_is_false.
  rewrite !bool_decide_false by done. simpl. by rewrite Hfresh.
Qed.

(** X19: selecting two rooms of the list in the two selectors and clicking
    Add appends their pair, when the two names are distinct and not empty and
    the pair is not listed in either order; integrity is kept. *)
Theorem select_and_add s i j room1 room2 :
  rooms s !! i = Some room1 → rooms s !! j = Some room2 →
  Room.name room1 ≠ "" → Room.name room2 ≠ "" →
  Room.name room1 ≠ Room.name room2 →
  existsb (samePair (Adjacency.mk (Room.name room1) (Room.name room2)))
          (adjacencies s) = false →
  let s' := run [SelectNewRoom1 (Some i); SelectNewRoom2 (Some j); ClickAddAdjacency] s in
  adjacencies s' = adjacencies s ++ [Adjacency.mk (Room.name room1) (Room.name room2)]
  ∧ newAdjacency s' = Adjacency.mk "" ""
  ∧ (integrity s → integrity s').
Proof.
  intros Hi Hj H1 H2 H12 Hfresh. cbv zeta.
  assert (run [SelectNewRoom1 (Some i); SelectNewRoom2 (Some j)] s
          = setNewAdjacency (Adjacency.mk (Room.name room1) (Room.name room2)) s)
    as Hselected.
  { cbn [run handle choiceValue]. unfold optionValue. rewrite Hi. simpl.
    by rewrite Hj. }
  change (run [SelectNewRoom1 (Some i); SelectNewRoom2 (Some j); ClickAddAdjacency] s)
    with (addAdjacency (run [SelectNewRoom1 (Some i); SelectNewRoom2 (Some j)] s)).
  rewrite Hselected, addAdjacency_fresh.
  - split; [done|]. split; [done|].
    unfold integrity, roomNames. simpl. intros Hinv.
    apply Forall_app. split; [done|]. apply Forall_singleton. simpl.
    split; apply list_elem_of_fmap_2; by eapply list_elem_of_lookup_2.
  - done.
  - unfold pairPresent. simpl. by rewrite Hfresh.
Qed.

Lemma select_and_add_witness :
  adjacencies (run [SelectNewRoom1 (Some 2%nat); SelectNewRoom2 (Some 3%nat);
                    ClickAddAdjacency] initialState)
  = adjacencies initialState ++ [Adjacency.mk "Dining" "Bedroom"].
Proof.
  by destruct (select_and_add initialState 2 3 (Room.mk "Dining" 4 4 6)
                 (Room.mk "Bedroom" 5 5 5)) as [Hadded _].
Defined.

Lemma selectionOffered_handle e s :
  renamesOrRemovesRoom e = false →
  integrity s ∧ selectionOffered s →
  integrity (handle e s) ∧ selectionOffered (handle e s).
Proof.
  intros He [Hinv Hsel].
  assert (∀ s', roomNames s' = roomNames s → newAdjacency s' = newAdjacency s →
                selectionOffered s') as Hsame.
  { intros s' Hnames Hnew. unfold selectionOffered. by rewrite Hnames, Hnew. }
  destruct (decide (e = ClickAddAdjacency)) as [->|Hadd].
  { unfold handle, addAdjacency.
    destruct (bool_decide (Adjacency.room1 (newAdjacency s) = "")) eqn:H1;
      simpl; [done|].
    destruct (bool_decide (Adjacency.room2 (newAdjacency s) = "")) eqn:H2;
      simpl; [done|].
    apply bool_decide_eq_false in H1, H2.
    destruct (bool_decide (Adjacency.room1 (newAdjacency s)
                           = Adjacency.room2 (newAdjacency s))); simpl; [done|].
    destruct (existsb _ _); simpl; [done|].
    destruct Hsel as [Hs1 Hs2]. apply elem_of_cons in Hs1 as [?|Hs1]; [done|].
    apply elem_of_cons in Hs2 as [?|Hs2]; [done|]. split.
    - unfold integrity, roomNames in *. simpl.
      by apply Forall_app, conj, Forall_singleton.
    - unfold selectionOffered. simpl. split; by left. }
  split.
  { apply handle_integrity; [|done..].
    intros index v ->. discriminate He. }
  destruct e; try discriminate He; try (by destruct Hadd);
    try (by apply Hsame; handler_cases).
  - (* a numeric field of a room *)
    apply Hsame; [|by handler_cases].
    unfold handle, after, changeRoomWidth, editRoom, roomNames.
    destruct (rooms s !! index) as [room|] eqn:Hroom; [|done]. simpl.
    by rewrite (roomNames_insert_same _ _ room).
  - apply Hsame; [|by handler_cases].
    unfold handle, after, changeRoomHeight, editRoom, roomNames.
    destruct (rooms s !! index) as [room|] eqn:Hroom; [|done]. simpl.
    by rewrite (roomNames_insert_same _ _ room).
  - apply Hsame; [|by handler_cases].
    unfold handle, after, changeRoomMaxExpansion, editRoom, roomNames.
    destruct (rooms s !! index) as [room|] eqn:Hroom; [|done]. simpl.
    by rewrite (roomNames_insert_same _ _ room).
  - (* a room is added *)
    unfold handle, addRoom. destruct (_ && _); [|done].
    unfold selectionOffered, roomNames in *. simpl. rewrite fmap_app.
    destruct Hsel as [Hs1 Hs2].
    split; rewrite app_comm_cons; apply elem_of_app; by left.
  - (* a selector of the new adjacency *)
    unfold handle, choiceValue, optionValue, selectNewRoom1.
    destruct Hsel as [Hs1 Hs2]. destruct choice as [shown|]; simpl.
    + destruct (rooms s !! shown) as [room|] eqn:Hroom; [|done]. simpl.
      split; [|done]. simpl. right. unfold roomNames.
      apply list_elem_of_fmap_2. by eapply list_elem_of_lookup_2.
    + split; [by left|done].
  - unfold handle, choiceValue, optionValue, selectNewRoom2.
    destruct Hsel as [Hs1 Hs2]. destruct choice as [shown|]; simpl.
    + destruct (rooms s !! shown) as [room|] eqn:Hroom; [|done]. simpl.
      split; [done|]. simpl. right. unfold roomNames.
      apply list_elem_of_fmap_2. by eapply list_elem_of_lookup_2.
    + split; [done|by left].
Qed.

(** X20: as long as no room is renamed or removed, referential integrity of
    the adjacency list holds after every sequence of events from the initial
    state, and the two selectors of the new adjacency hold values they
    offer. *)
Theorem integrity_without_rename_or_removal events :
  Forall (λ e, renamesOrRemovesRoom e = false) events →
  integrity (run events initialState)
  ∧ selectionOffered (run events initialState).
Proof.
  assert (integrity initialState ∧ selectionOffered initialState) as Hinit.
  { split; [by_decision|]. split; by left. }
  revert Hinit. generalize initialState.
  induction events as [|e events IH]; intros s Hs Hevents; [done|].
  apply Forall_cons in Hevents as [He Hevents]. cbn [run].
  apply IH; [|done]. by apply selectionOffered_handle.
Qed.

Lemma integrity_without_rename_or_removal_witness :
  integrity (run [ClickAddRoom; SelectNewRoom1 (Some 4%nat); EditRoomWidth 0 "9";
                  SelectNewRoom2 (Some 2%nat); ClickAddAdjacency; ClickGenerate]
                 initialState).
Proof.
  apply integrity_without_rename_or_removal. by repeat constructor.
Defined.
